(** * OpenMindsBackend: token codec, access policy and test-submission scoring

    A shallow embedding of the parts of the backend that carry logic:

    - [app/services/result_service.py]: [submit_test_and_calculate_score];
    - [app/api/routes/results.py] and [app/api/routes/auth.py]: the
      authorization guards of the route handlers;
    - [app/utils/jwt_utils.py]: [create_access_token] and [verify_token].

    Conventions of the embedding.

    - Values that reach the service from a request body are JSON values as
      Python holds them after parsing ([None], [bool], [int], [float], [str],
      [list], [dict]); a [dict] is a finite map with string keys.
    - A Python [float] score is modelled by the rational it denotes ([Q]);
      rounding of floating-point addition is not modelled.
    - A Python exception is a value of [exn]; a body that may raise returns
      an [outcome].
    - The relational store is a record of tables, passed explicitly; it
      accepts every row the code adds (constraint violations and
      connection failures are not modelled).
    - Time is a POSIX timestamp in whole seconds ([Z]), the resolution at
      which the JWT library compares [exp] with the clock. *)

From Stdlib Require Import QArith Ascii.
From stdpp Require Import gmap strings list fin_maps pretty.

#[local] Set Warnings "-register-all".
#[local] Open Scope Z_scope.

(** ** Python values and the operators the code applies to them *)

Module Py.

(** A Python [float]: finite ones by their exact value. *)
Inductive pyfloat :=
| Finite (q : Q)
| PosInf
| NegInf
| NaN.

(** What [json.loads] yields, and so what a [Dict[str, Any]] field holds. *)
Inductive json :=
| JNull
| JBool (b : bool)
| JInt (n : Z)
| JFloat (f : pyfloat)
| JStr (s : string)
| JArr (l : list json)
| JObj (m : gmap string json).

(** The exception classes that occur in the embedded code. The three
    [JWT...] classes are those of the JWT library; the last two derive
    from [JWTError]. *)
Inductive exn :=
| TypeError
| KeyError
| JWTError
| ExpiredSignatureError
| JWTClaimsError.

Inductive outcome (A : Type) :=
| Returns (a : A)
| Raises (e : exn).
Arguments Returns {A} a.
Arguments Raises {A} e.

#[export] Instance outcome_ret : MRet outcome := fun _ a => Returns a.
#[export] Instance outcome_bind : MBind outcome := fun _ _ f m =>
  match m with
  | Returns a => f a
  | Raises e => Raises e
  end.

(** [str(n)] for an [int]. *)
Definition str (n : Z) : string := pretty n.

(** [bool(v)]: truth value of a JSON value. *)
Definition truthy (v : json) : bool :=
  match v with
  | JNull => false
  | JBool b => b
  | JInt n => negb (n =? 0)
  | JFloat (Finite q) => negb (Qeq_bool q 0)
  | JFloat _ => true
  | JStr s => negb (String.eqb s "")
  | JArr l => match l with [] => false | _ => true end
  | JObj m => negb (bool_decide (m = ∅))
  end.

(** [v == idx] where [idx] is an [int] column value or [None]. Python
    compares numbers by value across [bool], [int] and [float]; [None] is
    equal to [None] only; a [str], [list] or [dict] is equal to neither. *)
Definition eq_index (v : json) (idx : option Z) : bool :=
  match v, idx with
  | JNull, None => true
  | JBool b, Some k => Z.b2z b =? k
  | JInt n, Some k => n =? k
  | JFloat (Finite q), Some k => Qeq_bool q (inject_Z k)
  | _, _ => false
  end.

(** [v == s] where [s] is a [str]. *)
Definition eq_str (v : json) (s : string) : bool :=
  match v with
  | JStr s' => String.eqb s' s
  | _ => false
  end.

(** [k in s] for two [str]: substring test. *)
Fixpoint substring_of (k s : string) : bool :=
  String.prefix k s ||
  match s with
  | EmptyString => false
  | String _ s' => substring_of k s'
  end.

(** [k in c] for a [str] key [k]. *)
Definition contains (c : json) (k : string) : outcome bool :=
  match c with
  | JObj m => Returns (bool_decide (is_Some (m !! k)))
  | JArr l => Returns (existsb (fun v => eq_str v k) l)
  | JStr s => Returns (substring_of k s)
  | JNull | JBool _ | JInt _ | JFloat _ => Raises TypeError
  end.

(** [c[k]] for a [str] key [k]. *)
Definition getitem (c : json) (k : string) : outcome json :=
  match c with
  | JObj m => match m !! k with
              | Some v => Returns v
              | None => Raises KeyError
              end
  | _ => Raises TypeError
  end.

End Py.
Export Py.

(** ** [app/db/models.py] *)

Module Models.

Inductive UserRole := USER | ADMIN.

#[export] Instance UserRole_eq_dec : EqDecision UserRole.
Proof. solve_decision. Defined.

Record User := {
  user_id_of : Z;
  email : string;
  role : UserRole
}.

Record TestPaper := {
  tp_id : Z;
  name : string;
  duration_minutes : Z;
  is_active : bool
}.

Record Question := {
  q_id : Z;
  question_text : string;
  max_score : Q;
  options : json;
  correct_option_index : option Z;
  q_test_paper_id : Z
}.

Record Result := {
  r_id : Z;
  r_user_id : Z;
  r_test_paper_id : Z;
  final_score : Q;
  user_answers : json
}.

(** The tables a session reads and writes, and the next key of
    [results]. *)
Record DB := {
  test_papers : list TestPaper;
  questions : list Question;
  results : list Result;
  next_result_id : Z
}.

(** [db.add(new_result); db.commit(); db.refresh(new_result)] *)
Definition add_result (db : DB) (uid tpid : Z) (score : Q) (answers : json)
  : Result * DB :=
  let r := {| r_id := next_result_id db; r_user_id := uid;
              r_test_paper_id := tpid; final_score := score;
              user_answers := answers |} in
  (r, {| test_papers := test_papers db; questions := questions db;
         results := results db ++ [r];
         next_result_id := next_result_id db + 1 |}).

End Models.
Export Models.

(** ** [app/services/result_service.py] *)

Module ResultService.

(** Lines 168-176: the answer mapping that is graded. *)
Definition normalize (user_answers : json) : json :=
  match user_answers with
  | JObj m =>
      match m !! "user_answers" with
      | Some nested => nested
      | None => JObj m
      end
  | _ => JObj ∅
  end.


(** One iteration of the loop of lines 185-235, from the running total
    to the running total. *)
Definition grade_question (answer_data : json) (total_score : Q)
    (question : Question) : outcome Q :=
  let question_id := str (q_id question) in
  present ← contains answer_data question_id;
  if negb present then Returns total_score
  else
    user_answer ← getitem answer_data question_id;
    if truthy (options question) then
      if eq_index user_answer (correct_option_index question)
      then Returns (total_score + max_score question)%Q
      else Returns total_score
    else Returns total_score.

Fixpoint grade_loop (answer_data : json) (total_score : Q)
    (qs : list Question) : outcome Q :=
  match qs with
  | [] => Returns total_score
  | question :: rest =>
      total_score' ← grade_question answer_data total_score question;
      grade_loop answer_data total_score' rest
  end.


(** The body of the [try] block. *)
Definition submit_body (db : DB) (user_id test_paper_id : Z)
    (user_answers : json) : outcome (option Result * DB) :=
  match find (fun tp => tp_id tp =? test_paper_id) (test_papers db) with
  | None => Returns (None, db)
  | Some _ =>
      let qs := filter (fun q => q_test_paper_id q = test_paper_id)
                       (questions db) in
      match qs with
      | [] => Returns (None, db)
      | _ =>
          let answer_data := normalize user_answers in
          total_score ← grade_loop answer_data 0%Q qs;
          let '(new_result, db') :=
            add_result db user_id test_paper_id total_score answer_data in
          Returns (Some new_result, db')
      end
  end.

(** [except Exception: db.rollback(); return None]. Nothing is staged in
    the session before the loop ends, so the rollback restores [db]. *)
Definition submit_test_and_calculate_score (db : DB)
    (user_id test_paper_id : Z) (user_answers : json)
  : option Result * DB :=
  match submit_body db user_id test_paper_id user_answers with
  | Returns r => r
  | Raises _ => (None, db)
  end.

End ResultService.
Export ResultService.

(** ** Route guards: [app/api/routes/results.py], [app/api/routes/auth.py] *)

Module Routes.

Inductive response (A : Type) :=
| Ok (a : A)
| HTTPException (status_code : Z).
Arguments Ok {A} a.
Arguments HTTPException {A} status_code.

(** [auth.py], lines 67-85. *)
Definition get_current_admin (current_user : User) : response User :=
  if bool_decide (role current_user ≠ ADMIN)
  then HTTPException 403
  else Ok current_user.

(** [schemas/result.py], [TestSubmission]. *)
Record TestSubmission := {
  s_user_id : Z;
  s_test_paper_id : Z;
  s_user_answers : gmap string json
}.

(** [results.py], lines 20-54. *)
Definition submit_test (submission : TestSubmission) (db : DB)
    (current_user : User) : response Result * DB :=
  if bool_decide (s_user_id submission ≠ user_id_of current_user)
     && bool_decide (role current_user ≠ ADMIN)
  then (HTTPException 403, db)
  else
    let '(result, db') :=
      submit_test_and_calculate_score db (s_user_id submission)
        (s_test_paper_id submission) (JObj (s_user_answers submission)) in
    match result with
    | None => (HTTPException 404, db')
    | Some r => (Ok r, db')
    end.

(** [results.py], lines 88-114. *)
Definition get_result (result_id : Z) (db : DB) (current_user : User)
  : response Result :=
  match find (fun r => r_id r =? result_id) (results db) with
  | None => HTTPException 404
  | Some result =>
      if bool_decide (r_user_id result ≠ user_id_of current_user)
         && bool_decide (role current_user ≠ ADMIN)
      then HTTPException 403
      else Ok result
  end.

(** [test_papers.py], lines 60-109: the submission is made for the
    requester; a missing result is reported as 500. *)
Definition submit_test_paper (test_paper_id : Z) (data : gmap string json)
    (db : DB) (current_user : User) : response Result * DB :=
  match find (fun tp => tp_id tp =? test_paper_id) (test_papers db) with
  | None => (HTTPException 404, db)
  | Some _ =>
      let '(result, db') :=
        submit_test_and_calculate_score db (user_id_of current_user)
          test_paper_id (JObj data) in
      match result with
      | None => (HTTPException 500, db')
      | Some r => (Ok r, db')
      end
  end.

(** The operations that name a target account or are reserved to
    administrators. Handlers that only depend on [get_current_user]
    ([GET /auth/me], [GET /results/my-results], the catalogue reads of
    questions and test papers, [POST /test-papers/{id}/submit]) take no
    target account and make no decision of their own; they are not
    operations of the policy. *)
Inductive operation :=
| ReadProfile            (* GET /auth/users/{user_id} *)
| UpdateProfile          (* PATCH /auth/users/{user_id} *)
| SubmitTest             (* POST /results/submit *)
| ReadResult             (* GET /results/{result_id} *)
| ListUserResults        (* GET /results/users/{user_id} *)
| ListTestPaperResults   (* GET /results/test-papers/{test_paper_id} *)
| DeleteResult           (* DELETE /results/{result_id} *)
| ReadAdminProfile       (* GET /auth/admin/me *)
| AdminCreateUser        (* POST /auth/admin/create-user *)
| ManageQuestion         (* POST, PUT, DELETE /questions *)
| ManageTestPaper.       (* POST, PUT, DELETE /test-papers *)

(** The decision each handler takes before it touches the target, as a
    function of the requester and of the account the target belongs to. *)
Definition canAccess (requesterRole : UserRole)
    (requesterId resourceOwnerId : Z) (op : operation) : bool :=
  match op with
  | SubmitTest | ReadResult =>
      (* results.py:35 and results.py:108 *)
      negb (bool_decide (resourceOwnerId ≠ requesterId)
            && bool_decide (requesterRole ≠ ADMIN))
  | ReadProfile | UpdateProfile =>
      (* auth.py:214 and auth.py:251 *)
      negb (bool_decide (requesterRole ≠ ADMIN)
            && bool_decide (requesterId ≠ resourceOwnerId))
  | ListUserResults | ListTestPaperResults | DeleteResult
  | ReadAdminProfile | AdminCreateUser | ManageQuestion
  | ManageTestPaper =>
      (* Depends(get_current_admin) *)
      negb (bool_decide (requesterRole ≠ ADMIN))
  end.

(** The operations a standard account may perform on what it owns. *)
Definition self_permitted (op : operation) : bool :=
  match op with
  | ReadProfile | UpdateProfile | SubmitTest | ReadResult => true
  | _ => false
  end.

End Routes.
Export Routes.

(** ** [app/utils/jwt_utils.py] *)

Module JwtUtils.

Abbreviation claims := (gmap string json).

(** The module-level settings read from the environment. *)
Record settings := {
  SECRET_KEY : string;
  ALGORITHM : string;
  ACCESS_TOKEN_EXPIRE_MINUTES : Z
}.

Definition default_settings : settings :=
  {| SECRET_KEY := "your-secret-key-placeholder-change-in-production";
     ALGORITHM := "HS256";
     ACCESS_TOKEN_EXPIRE_MINUTES := 30 |}.

(** *** The JWT library

    [jose.jwt] is not part of the repository. A token text is modelled by
    what the library's loader makes of it: either the text does not split
    into three decodable segments with a JSON-object header, or it yields
    the header's algorithm, the payload and the signature. *)

Inductive payload :=
| JsonObject (c : claims)
| NotAnObject (raw : string).

Inductive token :=
| Malformed (text : string)
| Compact (alg : string) (body : payload) (signature : string).

(** [isinstance(e, JWTError)] *)
Definition jwt_error (e : exn) : bool :=
  match e with
  | JWTError | ExpiredSignatureError | JWTClaimsError => true
  | TypeError | KeyError => false
  end.

(** What the development takes from the library: a keyed signature
    function; the library's reading of a claim that is not an [int] as an
    integer; and its checks of the registered claims other than [exp]. *)
Class Jose := {
  hmac : string → string → payload → string;
  int_claim : json → outcome Z;
  validate_other : claims → Z → outcome unit
}.


Section codec.
Context {J : Jose}.

(** [jwt.encode(claims, key, algorithm=alg)] *)
Definition jwt_encode (c : claims) (key alg : string) : token :=
  Compact alg (JsonObject c) (hmac key alg (JsonObject c)).

(** [int(claims["exp"])] *)
Definition exp_of (v : json) : outcome Z :=
  match v with
  | JInt n => Returns n
  | _ => int_claim v
  end.

(** The expiry check of [jwt.decode]: a token is rejected once the
    clock has passed its [exp]. *)
Definition validate_exp (c : claims) (now : Z) : outcome unit :=
  match c !! "exp" with
  | None => Returns ()
  | Some v =>
      exp ← exp_of v;
      if exp <? now then Raises ExpiredSignatureError else Returns ()
  end.

(** [jwt.decode(token, key, algorithms=algs)] evaluated at time [now]. *)
Definition jwt_decode (t : token) (key : string) (algs : list string)
    (now : Z) : outcome claims :=
  match t with
  | Malformed _ => Raises JWTError
  | Compact alg body signature =>
      if negb (bool_decide (alg ∈ algs)) then Raises JWTError
      else if negb (String.eqb signature (hmac key alg body))
      then Raises JWTError
      else
        match body with
        | NotAnObject _ => Raises JWTError
        | JsonObject c =>
            _ ← validate_exp c now;
            _ ← validate_other c now;
            Returns c
        end
  end.
End codec.

(** *** Python objects

    [create_access_token] receives a reference to a [dict]; the store
    maps references to the dictionaries they denote. *)

Abbreviation loc := positive.
Abbreviation heap := (gmap loc claims).

Definition St (A : Type) : Type := heap → option (A * heap).

(** [d.copy()]: a new dictionary with the same items. *)
Definition dict_copy (l : loc) : St loc := fun h =>
  d ← h !! l;
  let l' := fresh (dom h) in
  Some (l', <[l' := d]> h).

(** [d.update({k: v})] *)
Definition dict_update (l : loc) (k : string) (v : json) : St unit :=
  fun h =>
    d ← h !! l;
    Some ((), <[l := <[k := v]> d]> h).

Definition dict_read (l : loc) : St claims := fun h =>
  d ← h !! l;
  Some (d, h).

Definition st_bind {A B} (m : St A) (f : A → St B) : St B := fun h =>
  match m h with
  | Some (a, h') => f a h'
  | None => None
  end.

Section jwt_utils.
Context {J : Jose} (cfg : settings).

(** [datetime.utcnow() + expires_delta], or the default lifetime when
    [expires_delta] is [None] or a zero [timedelta] (both are false in
    a condition). *)
Definition expiry (expires_delta : option Z) (now : Z) : Z :=
  match expires_delta with
  | Some delta =>
      if negb (delta =? 0) then now + delta
      else now + 60 * ACCESS_TOKEN_EXPIRE_MINUTES cfg
  | None => now + 60 * ACCESS_TOKEN_EXPIRE_MINUTES cfg
  end.

(** Lines 14-35. The library replaces the [datetime] stored under
    ["exp"] by its timestamp when it encodes; the model stores the
    timestamp at once. *)
Definition create_access_token (data : loc) (expires_delta : option Z)
    (now : Z) : St token :=
  st_bind (dict_copy data) (fun to_encode =>
  let expire := expiry expires_delta now in
  st_bind (dict_update to_encode "exp" (JInt expire)) (fun _ =>
  st_bind (dict_read to_encode) (fun c =>
  fun h => Some (jwt_encode c (SECRET_KEY cfg) (ALGORITHM cfg), h)))).

(** Lines 37-51. *)
Definition verify_token (now : Z) (t : token) : outcome (option claims) :=
  match jwt_decode t (SECRET_KEY cfg) [ALGORITHM cfg] now with
  | Returns payload => Returns (Some payload)
  | Raises e => if jwt_error e then Returns None else Raises e
  end.
End jwt_utils.

(** An instance of the library interface: signatures that depend on key,
    algorithm and payload; boolean claims read as integers; a ["sub"]
    claim required to be a string. *)
Definition payload_tag (p : payload) : string :=
  match p with
  | JsonObject c => pretty (Z.of_nat (size c))
  | NotAnObject raw => raw
  end.

Definition model_hmac (key alg : string) (p : payload) : string :=
  key +:+ ":" +:+ alg +:+ ":" +:+ payload_tag p.

Definition model_int_claim (v : json) : outcome Z :=
  match v with
  | JBool b => Returns (Z.b2z b)
  | _ => Raises JWTClaimsError
  end.

Definition model_validate_other (c : claims) (now : Z) : outcome unit :=
  match c !! "sub" with
  | None | Some (JStr _) => Returns ()
  | Some _ => Raises JWTClaimsError
  end.

Definition jose_model : Jose :=
  {| hmac := model_hmac;
     int_claim := model_int_claim;
     validate_other := model_validate_other |}.

End JwtUtils.
Export JwtUtils.

(** ** Vocabulary of the properties *)

Module Props.

(** The correct-option index of [q] is [i], an index into its list of
    options. *)
Definition valid_index (q : Question) (i : Z) : Prop :=
  correct_option_index q = Some i ∧
  ∃ l, options q = JArr l ∧ 0 ≤ i < Z.of_nat (length l).


(** An answer mapping is keyed by question identifiers. *)
Definition answer_mapping (m : gmap string json) : Prop :=
  ∀ k, is_Some (m !! k) → ∃ id : Z, k = str id.




(** The questions of a test paper, as the service loads them. *)
Definition questions_of (db : DB) (test_paper_id : Z) : list Question :=
  filter (fun q => q_test_paper_id q = test_paper_id) (questions db).

Definition resolves (db : DB) (test_paper_id : Z) : Prop :=
  is_Some (find (fun tp => tp_id tp =? test_paper_id) (test_papers db)).

End Props.
Export Props.

(** ** Sample data *)

Module Samples.

Definition two_options : json := JArr [JObj {["text" := JStr "a"]};
                                       JObj {["text" := JStr "b"]}].

(** A question of weight 1 whose second option is the correct one. *)
Definition q7 : Question :=
  {| q_id := 7; question_text := "q7"; max_score := 1%Q;
     options := two_options; correct_option_index := Some 1;
     q_test_paper_id := 1 |}.

(** A question of weight 2 whose correct-option index is unset. *)
Definition q9 : Question :=
  {| q_id := 9; question_text := "q9"; max_score := 2%Q;
     options := two_options; correct_option_index := None;
     q_test_paper_id := 1 |}.

(** A question with a negative weight. *)
Definition q5 : Question :=
  {| q_id := 5; question_text := "q5"; max_score := (-1)%Q;
     options := two_options; correct_option_index := Some 0;
     q_test_paper_id := 2 |}.

Definition paper (id : Z) : TestPaper :=
  {| tp_id := id; name := "paper"; duration_minutes := 60;
     is_active := true |}.

(** Paper 1 holds [q7] and [q9], paper 2 holds [q5], paper 3 is empty. *)
Definition db0 : DB :=
  {| test_papers := [paper 1; paper 2; paper 3];
     questions := [q7; q9; q5];
     results := [];
     next_result_id := 1 |}.

Definition alice : User :=
  {| user_id_of := 10; email := "alice@example.org"; role := USER |}.

(** A store in which reference 1 denotes the claims of account 10. *)
Definition alice_claims : claims :=
  {["sub" := JStr "10"; "email" := JStr "alice@example.org";
    "role" := JStr "USER"]}.

Definition store0 : heap := {[1%positive := alice_claims]}.

End Samples.
Export Samples.

(** ** [app/services/result_service.py]: reading and deleting results *)

Module ResultQueries.

(** [session.delete(row)] for the row a query found first. *)
Fixpoint remove_first {A} (p : A → bool) (l : list A) : list A :=
  match l with
  | [] => []
  | x :: l' => if p x then l' else x :: remove_first p l'
  end.

(** Assignment to the attributes of the row a query found first. *)
Fixpoint update_first {A} (p : A → bool) (f : A → A) (l : list A) : list A :=
  match l with
  | [] => []
  | x :: l' => if p x then f x :: l' else x :: update_first p f l'
  end.

(** Lines 40-56. The stored answers are read back as the value that was
    serialized. *)
Definition get_result_by_id (db : DB) (result_id : Z) : option Result :=
  find (fun r => r_id r =? result_id) (results db).

(** Lines 58-76. *)
Definition get_results_by_user (db : DB) (user_id : Z) : list Result :=
  filter (fun r => r_user_id r = user_id) (results db).

(** Lines 78-96. *)
Definition get_results_by_test_paper (db : DB) (test_paper_id : Z)
  : list Result :=
  filter (fun r => r_test_paper_id r = test_paper_id) (results db).

Definition set_results (db : DB) (rs : list Result) : DB :=
  {| test_papers := test_papers db; questions := questions db;
     results := rs; next_result_id := next_result_id db |}.

(** Lines 271-296. *)
Definition delete_result (db : DB) (result_id : Z) : bool * DB :=
  match find (fun r => r_id r =? result_id) (results db) with
  | None => (false, db)
  | Some _ =>
      (true,
       set_results db (remove_first (fun r => r_id r =? result_id)
                         (results db)))
  end.

(** A handler that depends on [get_current_admin] runs only for an
    administrator. *)
Definition requires_admin {A} (current_user : User) (handler : A)
    (rejected : Z → A) : A :=
  match get_current_admin current_user with
  | Ok _ => handler
  | HTTPException status_code => rejected status_code
  end.


(** [results.py], lines 116-133. *)
Definition delete_result_by_id (result_id : Z) (db : DB)
    (current_user : User) : response unit * DB :=
  requires_admin current_user
    (let '(success, db') := delete_result db result_id in
     if negb success then (HTTPException 404, db') else (Ok (), db'))
    (fun status_code => (HTTPException status_code, db)).

End ResultQueries.
Export ResultQueries.

(** ** [app/services/test_paper_service.py], [app/services/question_service.py]:
       changing and deleting test papers and questions *)

Module Catalogue.

(** [test_paper_service.py], lines 75-93: the test paper and the number
    of its questions. *)
Definition get_test_paper_by_id (db : DB) (test_paper_id : Z)
  : option (TestPaper * nat) :=
  match find (fun tp => tp_id tp =? test_paper_id) (test_papers db) with
  | Some paper =>
      Some (paper,
            length (filter (fun q => q_test_paper_id q = tp_id paper)
                      (questions db)))
  | None => None
  end.

(** [schemas/test_paper.py], [TestPaperUpdate]. *)
Record TestPaperUpdate := {
  tu_name : option string;
  tu_duration_minutes : option Z;
  tu_is_active : option bool
}.

Definition apply_test_paper_update (data : TestPaperUpdate) (tp : TestPaper)
  : TestPaper :=
  {| tp_id := tp_id tp;
     name := match tu_name data with Some n => n | None => name tp end;
     duration_minutes := match tu_duration_minutes data with
                         | Some d => d
                         | None => duration_minutes tp
                         end;
     is_active := match tu_is_active data with
                  | Some a => a
                  | None => is_active tp
                  end |}.

(** [test_paper_service.py], lines 95-131. *)
Definition update_test_paper (db : DB) (test_paper_id : Z)
    (data : TestPaperUpdate) : option TestPaper * DB :=
  match get_test_paper_by_id db test_paper_id with
  | None => (None, db)
  | Some (test_paper, _) =>
      (Some (apply_test_paper_update data test_paper),
       {| test_papers :=
            update_first (fun tp => tp_id tp =? test_paper_id)
              (apply_test_paper_update data) (test_papers db);
          questions := questions db; results := results db;
          next_result_id := next_result_id db |})
  end.

(** [test_paper_service.py], lines 133-158. The relationships of
    [TestPaper] to its questions and results are declared with
    [cascade="all, delete-orphan"] ([models.py], lines 47-48): deleting
    the test paper deletes the rows that refer to it. *)
Definition delete_test_paper (db : DB) (test_paper_id : Z) : bool * DB :=
  match get_test_paper_by_id db test_paper_id with
  | None => (false, db)
  | Some (test_paper, _) =>
      (true,
       {| test_papers :=
            remove_first (fun tp => tp_id tp =? test_paper_id)
              (test_papers db);
          questions :=
            filter (fun q => q_test_paper_id q ≠ tp_id test_paper)
              (questions db);
          results :=
            filter (fun r => r_test_paper_id r ≠ tp_id test_paper)
              (results db);
          next_result_id := next_result_id db |})
  end.

(** [question_service.py], lines 163-188. *)
Definition delete_question (db : DB) (question_id : Z) : bool * DB :=
  match find (fun q => q_id q =? question_id) (questions db) with
  | None => (false, db)
  | Some _ =>
      (true,
       {| test_papers := test_papers db;
          questions :=
            remove_first (fun q => q_id q =? question_id) (questions db);
          results := results db;
          next_result_id := next_result_id db |})
  end.

End Catalogue.
Export Catalogue.

(** ** [app/services/question_service.py]: options of a question *)

Module QuestionService.

(** [schemas/question.py], [OptionBase]. *)
Record OptionBase := {
  o_text : string;
  is_correct : bool
}.

(** The loop of lines 25-32, from option [i] on: [options] is the list
    built so far, [correct_option_index]
    the index chosen so far, [given] the index the request carries. *)
Fixpoint options_loop (i : Z) (opts : list OptionBase) (given : option Z)
    (options : list json) (correct_option_index : option Z)
  : list json * option Z :=
  match opts with
  | [] => (options, correct_option_index)
  | option :: rest =>
      let option_data := JObj {["text" := JStr (o_text option)]} in
      let correct_option_index' :=
        if is_correct option
        then match given with
             | None => Some i
             | Some k => Some k
             end
        else correct_option_index in
      options_loop (i + 1) rest given (options ++ [option_data])
        correct_option_index'
  end.

(** Lines 22-32 of [create_new_question]: the options and the
    correct-option index the new question is given. *)
Definition create_question_options (opts : list OptionBase)
    (given : option Z) : list json * option Z :=
  options_loop 0 opts given [] None.

(** Lines 203-209 of [format_question_output], from option [i] on, for
    options that decode to a list. *)
Fixpoint format_options (i : Z) (options_data : list json)
  : outcome (list json) :=
  match options_data with
  | [] => Returns []
  | option :: rest =>
      text ← getitem option "text";
      formatted ← format_options (i + 1) rest;
      Returns (JObj {["id" := JInt (i + 1); "text" := text]} :: formatted)
  end.

(** Lines 217-221: the range check makes the subscript defined. *)
Definition correct_option_id (options : list json)
    (correct_option_index : option Z) : outcome (option json) :=
  match correct_option_index with
  | Some k =>
      if (0 <=? k) && (k <? Z.of_nat (length options))
      then id ← getitem (nth (Z.to_nat k) options JNull) "id";
           Returns (Some id)
      else Returns None
  | None => Returns None
  end.

(** Lines 190-232: the formatted options and the identifier of the
    correct one. *)
Definition format_question_output (options_data : list json)
    (correct_option_index : option Z) : outcome (list json * option json) :=
  options ← format_options 0 options_data;
  id ← correct_option_id options correct_option_index;
  Returns (options, id).

End QuestionService.
Export QuestionService.

(** ** [app/services/auth_service.py] and the handlers of
       [app/api/routes/auth.py] *)

Module AuthService.

(** A row of [users]: what the guards read of it, and the other columns
    the service reads and writes. *)
Record Account := {
  account_user : User;
  full_name : option string;
  phone_number : option string;
  date_of_birth : option Z;
  hashed_password : string
}.

Definition account_id (a : Account) : Z := user_id_of (account_user a).

(** The table and its next key. *)
Record UserTable := {
  users : list Account;
  next_user_id : Z
}.

(** What a function that commits its change yields: the value it
    returns, or the exception of the store that it raises again after
    rolling back. *)
Inductive attempt (A : Type) :=
| Returned (a : A)
| Reraised.
Arguments Returned {A} a.
Arguments Reraised {A}.

(** What the service takes from its platform: the equality the store
    applies to [users.email] in a filter, and the one its unique index
    applies to [users.phone_number]; [pwd_context.hash], which draws a
    salt, and [pwd_context.verify] ([utils/password_utils.py]); and the
    built-in [int] on a [str], undefined where it raises. *)
Class Platform := {
  same_email : string → string → bool;
  same_phone : string → string → bool;
  pwd_hash : string → string → string;
  pwd_verify : string → string → bool;
  int_of_str : string → option Z
}.

Section auth_service.
Context {P : Platform}.

(** [db.query(User).filter(User.email == email).first()] *)
Definition find_by_email (db : UserTable) (e : string) : option Account :=
  find (fun a => same_email (email (account_user a)) e) (users db).

(** Lines 15-48. *)
Definition register_user (salt : string) (db : UserTable)
    (full_name0 email0 password : string) (role0 : UserRole)
  : option Account * UserTable :=
  match find_by_email db email0 with
  | Some _ => (None, db)
  | None =>
      let new_user :=
        {| account_user := {| user_id_of := next_user_id db;
                              email := email0; role := role0 |};
           full_name := Some full_name0;
           phone_number := None;
           date_of_birth := None;
           hashed_password := pwd_hash salt password |} in
      (Some new_user,
       {| users := users db ++ [new_user];
          next_user_id := next_user_id db + 1 |})
  end.

(** Lines 51-70; [ADMIN_SECRET_KEY] is read from the environment. *)
Definition register_admin (ADMIN_SECRET_KEY salt : string) (db : UserTable)
    (full_name0 email0 password admin_secret : string)
  : option Account * UserTable :=
  if negb (String.eqb admin_secret ADMIN_SECRET_KEY) then (None, db)
  else register_user salt db full_name0 email0 password ADMIN.

(** Lines 72-91. *)
Definition authenticate_user (db : UserTable) (email0 password : string)
  : option Account :=
  match find_by_email db email0 with
  | None => None
  | Some user =>
      if negb (pwd_verify password (hashed_password user)) then None
      else Some user
  end.

(** Lines 121-132. *)
Definition get_user_by_id (db : UserTable) (user_id : Z) : option Account :=
  find (fun a => account_id a =? user_id) (users db).

(** [schemas/auth.py], [UserUpdate]: the three fields are required. *)
Record UserUpdate := {
  uu_full_name : string;
  uu_phone_number : string;
  uu_date_of_birth : Z
}.

(** Lines 147-182, for the keys of [UserUpdate.dict()]: each is an
    attribute of the row and is assigned. *)
Definition apply_user_update (data : UserUpdate) (a : Account) : Account :=
  {| account_user := account_user a;
     full_name := Some (uu_full_name data);
     phone_number := Some (uu_phone_number data);
     date_of_birth := Some (uu_date_of_birth data);
     hashed_password := hashed_password a |}.

(** [phone_number] is declared unique ([models.py], line 22): whether a
    row other than that of [user_id] holds the number. *)
Definition phone_taken (db : UserTable) (user_id : Z) (phone : string)
  : bool :=
  existsb (fun a => negb (account_id a =? user_id) &&
                    match phone_number a with
                    | Some p => same_phone p phone
                    | None => false
                    end) (users db).

Definition update_user_by_id (db : UserTable) (user_id : Z)
    (data : UserUpdate) : attempt (option Account) * UserTable :=
  match find (fun a => account_id a =? user_id) (users db) with
  | None => (Returned None, db)
  | Some user =>
      if phone_taken db user_id (uu_phone_number data) then (Reraised, db)
      else
        (Returned (Some (apply_user_update data user)),
         {| users := update_first (fun a => account_id a =? user_id)
                       (apply_user_update data) (users db);
            next_user_id := next_user_id db |})
  end.
End auth_service.

(** [role.value] *)
Definition role_value (r : UserRole) : string :=
  match r with
  | USER => "USER"
  | ADMIN => "ADMIN"
  end.

(** A dictionary display: a new dictionary in the store. *)
Definition dict_new (d : claims) : St loc := fun h =>
  let l := fresh (dom h) in
  Some (l, <[l := d]> h).

(** The claims [create_user_token] issues for an account. *)
Definition token_data (user : Account) : claims :=
  {["sub" := JStr (str (account_id user));
    "email" := JStr (email (account_user user));
    "role" := JStr (role_value (role (account_user user)))]}.

(** What a handler, or a dependency of a handler, yields: a value, an
    [HTTPException], or an exception of another class that leaves it. *)
Inductive dependency (A : Type) :=
| Resolved (a : A)
| Rejected (status_code : Z)
| Propagated.
Arguments Resolved {A} a.
Arguments Rejected {A} status_code.
Arguments Propagated {A}.

Section auth_tokens.
Context {J : Jose} {P : Platform} (cfg : settings).

(** Lines 93-119: the access token and its type. *)
Definition create_user_token (user : Account) (now : Z)
  : St (token * string) :=
  st_bind (dict_new (token_data user)) (fun data =>
  st_bind (create_access_token cfg data
             (Some (60 * ACCESS_TOKEN_EXPIRE_MINUTES cfg)) now)
    (fun access_token => fun h => Some ((access_token, "bearer"), h))).

(** [int(v)] for a claim, undefined where it raises. *)
Definition py_int (v : json) : option Z :=
  match v with
  | JInt n => Some n
  | JBool b => Some (Z.b2z b)
  | JFloat (Finite q) => Some (Z.quot (Qnum q) (Z.pos (Qden q)))
  | JStr s => int_of_str s
  | JFloat _ | JNull | JArr _ | JObj _ => None
  end.

(** [payload.get("sub")] *)
Definition get_sub (payload : claims) : json :=
  match payload !! "sub" with
  | Some v => v
  | None => JNull
  end.

(** [routes/auth.py], lines 19-64. *)
Definition get_current_user (now : Z) (t : token) (db : UserTable)
  : dependency Account :=
  match verify_token cfg now t with
  | Raises _ => Propagated
  | Returns None => Rejected 401
  | Returns (Some payload) =>
      if Nat.eqb (size payload) 0 then Rejected 401
      else
        match py_int (get_sub payload) with
        | None => Propagated
        | Some user_id =>
            if user_id =? 0 then Rejected 401
            else
              match get_user_by_id db user_id with
              | None => Rejected 401
              | Some user => Resolved user
              end
        end
  end.

(** [routes/auth.py], lines 117-148. *)
Definition login (db : UserTable) (username password : string) (now : Z)
  : St (response (token * string)) := fun h =>
  match authenticate_user db username password with
  | None => Some (HTTPException 401, h)
  | Some user =>
      match create_user_token user now h with
      | Some (t, h') => Some (Ok t, h')
      | None => None
      end
  end.
End auth_tokens.

Section auth_routes.
Context {P : Platform}.

(** [routes/auth.py], lines 163-192. *)
Definition admin_registration (ADMIN_SECRET_KEY salt : string)
    (db : UserTable) (full_name0 email0 password admin_secret : string)
  : response Account * UserTable :=
  match register_admin ADMIN_SECRET_KEY salt db full_name0 email0 password
          admin_secret with
  | (None, db') => (HTTPException 400, db')
  | (Some new_admin, db') => (Ok new_admin, db')
  end.

(** [routes/auth.py], lines 207-226. *)
Definition get_user_by_id_endpoint (user_id : Z) (db : UserTable)
    (current_user : User) : response Account :=
  if bool_decide (role current_user ≠ ADMIN)
     && bool_decide (user_id_of current_user ≠ user_id)
  then HTTPException 403
  else match get_user_by_id db user_id with
       | None => HTTPException 404
       | Some user => Ok user
       end.

(** [routes/auth.py], lines 228-266. *)
Definition update_user (user_id : Z) (user_data : UserUpdate)
    (db : UserTable) (current_user : User)
  : dependency Account * UserTable :=
  if bool_decide (role current_user ≠ ADMIN)
     && bool_decide (user_id_of current_user ≠ user_id)
  then (Rejected 403, db)
  else match update_user_by_id db user_id user_data with
       | (Reraised, db') => (Propagated, db')
       | (Returned None, db') => (Rejected 404, db')
       | (Returned (Some updated_user), db') => (Resolved updated_user, db')
       end.

(** [routes/auth.py], lines 269-303. *)
Definition admin_create_user (salt : string) (db : UserTable)
    (full_name0 email0 password : string) (current_user : User)
  : response Account * UserTable :=
  match get_current_admin current_user with
  | HTTPException status_code => (HTTPException status_code, db)
  | Ok _ =>
      match register_user salt db full_name0 email0 password USER with
      | (None, db') => (HTTPException 400, db')
      | (Some new_user, db') => (Ok new_user, db')
      end
  end.
End auth_routes.

(** A platform for the samples: exact comparison of e-mail addresses, a
    hash that keeps the salt in front of the password, and decimal
    numerals with an optional minus sign. *)
Definition digit_of (c : ascii) : option Z :=
  let n := Z.of_nat (nat_of_ascii c) in
  if (48 <=? n) && (n <=? 57) then Some (n - 48) else None.

Fixpoint parse_digits (s : string) (acc : Z) : option Z :=
  match s with
  | EmptyString => Some acc
  | String c s' =>
      match digit_of c with
      | Some d => parse_digits s' (10 * acc + d)
      | None => None
      end
  end.

Definition parse_decimal (s : string) : option Z :=
  match s with
  | EmptyString => None
  | String "-" EmptyString => None
  | String "-" s' => Z.opp <$> parse_digits s' 0
  | _ => parse_digits s 0
  end.

Definition sample_verify (password hashed : string) : bool :=
  match String.index 0 "$" hashed with
  | Some n =>
      String.eqb password
        (String.substring (S n) (String.length hashed - S n) hashed)
  | None => false
  end.

Definition sample_platform : Platform :=
  {| same_email := String.eqb;
     same_phone := String.eqb;
     pwd_hash := fun salt password => salt +:+ "$" +:+ password;
     pwd_verify := sample_verify;
     int_of_str := parse_decimal |}.

End AuthService.
Export AuthService.

(** ** Invariants of the store *)

Module Invariants.

(** The keys of [results] are distinct and below the next key. *)
Definition results_wf (db : DB) : Prop :=
  NoDup (r_id <$> results db) ∧
  Forall (fun r => r_id r < next_result_id db) (results db).

(** The keys of [test_papers] and of [questions] are distinct. *)
Definition catalogue_wf (db : DB) : Prop :=
  NoDup (tp_id <$> test_papers db) ∧ NoDup (q_id <$> questions db).

(** The keys of [users] are distinct and below the next key. *)
Definition users_wf (db : UserTable) : Prop :=
  NoDup (account_id <$> users db) ∧
  Forall (fun a => account_id a < next_user_id db) (users db).

(** The option as [create_new_question] stores it. *)
Definition option_data (o : OptionBase) : json :=
  JObj {["text" := JStr (o_text o)]}.

(** The option as [format_question_output] returns it, at position [i]. *)
Definition formatted_option (i : nat) (o : OptionBase) : json :=
  JObj {["id" := JInt (Z.of_nat i + 1); "text" := JStr (o_text o)]}.

End Invariants.
Export Invariants.

(** ** Sample accounts *)

Module AuthSamples.

Definition alice_account : Account :=
  {| account_user := alice;
     full_name := Some "Alice";
     phone_number := None;
     date_of_birth := None;
     hashed_password := "salt$wonderland" |}.

(** A table that holds the account of [alice]. *)
Definition users0 : UserTable :=
  {| users := [alice_account]; next_user_id := 11 |}.

Definition root_user : User :=
  {| user_id_of := 1; email := "root@example.org"; role := ADMIN |}.

End AuthSamples.
Export AuthSamples.

(** * Properties *)

(** ** The scoring loop *)

Section scoring.
Implicit Types (m : gmap string json) (q : Question) (total : Q).


(** On a mapping the membership test and the subscript never raise, and
    one iteration is a function of the looked-up answer. *)
Lemma grade_question_mapping m total q :
  grade_question (JObj m) total q =
  Returns (match m !! str (q_id q) with
           | Some v =>
               if truthy (options q) && eq_index v (correct_option_index q)
               then (total + max_score q)%Q
               else total
           | None => total
           end).
Proof.
  unfold grade_question. simpl.
  destruct (m !! str (q_id q)) as [v|] eqn:Hv; simpl.
  - destruct (truthy (options q)); simpl; [|done].
    by destruct (eq_index v (correct_option_index q)).
  - done.
Qed.



Lemma valid_index_truthy q i : valid_index q i → truthy (options q) = true.
Proof.
  intros (_ & l & -> & Hi). destruct l; [simpl in Hi; lia|done].
Qed.




End scoring.

(** ** Contribution of a question *)







(** ** Submission *)

Section submission.
Implicit Types (db : DB) (payload : json).

Lemma submit_body_unfold db uid tpid payload :
  submit_body db uid tpid payload =
  match find (fun tp => tp_id tp =? tpid) (test_papers db) with
  | None => Returns (None, db)
  | Some _ =>
      match questions_of db tpid with
      | [] => Returns (None, db)
      | qs =>
          total ← grade_loop (normalize payload) 0%Q qs;
          Returns (Some (add_result db uid tpid total (normalize payload)).1,
                   (add_result db uid tpid total (normalize payload)).2)
      end
  end.
Proof.
  unfold submit_body, questions_of.
  destruct (find _ _); [|done].
  destruct (filter _ _) as [|q qs]; [done|].
  by destruct (grade_loop _ _ _).
Qed.

Lemma submit_not_found db uid tpid payload :
  ¬ resolves db tpid ∨ questions_of db tpid = [] →
  submit_test_and_calculate_score db uid tpid payload = (None, db).
Proof.
  unfold submit_test_and_calculate_score, resolves.
  rewrite submit_body_unfold. intros [Hp|Hq].
  - destruct (find _ _); [|done]. destruct Hp; eauto.
  - rewrite Hq. by destruct (find _ _).
Qed.

Lemma submit_graded db uid tpid payload total :
  resolves db tpid → questions_of db tpid ≠ [] →
  grade_loop (normalize payload) 0%Q (questions_of db tpid)
    = Returns total →
  submit_test_and_calculate_score db uid tpid payload =
    (Some (add_result db uid tpid total (normalize payload)).1,
     (add_result db uid tpid total (normalize payload)).2).
Proof.
  unfold submit_test_and_calculate_score, resolves.
  rewrite submit_body_unfold. intros [tp ->] Hqs Hg.
  destruct (questions_of db tpid) as [|q qs]; [done|]. by rewrite Hg.
Qed.

Lemma submit_raised db uid tpid payload e :
  grade_loop (normalize payload) 0%Q (questions_of db tpid) = Raises e →
  submit_test_and_calculate_score db uid tpid payload = (None, db).
Proof.
  unfold submit_test_and_calculate_score.
  rewrite submit_body_unfold. intros Hg.
  destruct (find _ _); [|done].
  destruct (questions_of db tpid) as [|q qs]; [done|]. by rewrite Hg.
Qed.

Lemma submit_Some_inv db uid tpid payload r db' :
  submit_test_and_calculate_score db uid tpid payload = (Some r, db') →
  ∃ total,
    grade_loop (normalize payload) 0%Q (questions_of db tpid)
      = Returns total ∧
    add_result db uid tpid total (normalize payload) = (r, db').
Proof.
  unfold submit_test_and_calculate_score.
  rewrite submit_body_unfold.
  destruct (find _ _); [|done].
  destruct (questions_of db tpid) as [|q qs]; [done|].
  destruct (grade_loop _ _ _) as [total|]; simpl; [|done].
  intros [= <- <-]. by exists total.
Qed.


(** The handler of [POST /test-papers/{id}/submit] reports the same
    outcome of the service as 500 when the test paper exists. *)
Lemma submit_test_paper_no_result db tpid (m : gmap string json) u :
  resolves db tpid →
  submit_test_and_calculate_score db (user_id_of u) tpid (JObj m)
    = (None, db) →
  submit_test_paper tpid m db u = (HTTPException 500, db).
Proof.
  unfold submit_test_paper, resolves. intros [tp ->] Hs. by rewrite Hs.
Qed.
End submission.

(** ** Normalization *)

Section normalization.
(** Every character [pretty_N_char] produces is a decimal digit. *)
Lemma pretty_N_char_digit x :
  (48 ≤ nat_of_ascii (pretty_N_char x) ≤ 57)%nat.
Proof.
  unfold pretty_N_char.
  repeat case_match; vm_compute; lia.
Qed.

(** The decimal digits of a number are put in front of the accumulator. *)
Lemma pretty_N_go_head (x : N) (s : string) :
  pretty_N_go x s = s ∨
  ∃ c rest, pretty_N_go x s = String c rest ∧
            (48 ≤ nat_of_ascii c ≤ 57)%nat.
Proof.
  revert s. induction (N.lt_wf_0 x) as [x _ IH]; intros s.
  destruct (decide (x = 0)%N) as [->|Hx]; [by left|].
  rewrite pretty_N_go_step by lia. right.
  destruct (IH (x `div` 10)%N
              (N.div_lt x 10 ltac:(lia) ltac:(lia))
              (String (pretty_N_char (x `mod` 10)) s))
    as [->|(c & rest & -> & Hc)]; eauto using pretty_N_char_digit.
Qed.

(** [str(id)] is never the wrapper key. *)
Lemma str_not_wrapper_key (id : Z) : str id ≠ "user_answers".
Proof.
  unfold str, pretty, pretty_Z. destruct id as [|p|p]; [done| |done].
  unfold pretty, pretty_positive, pretty, pretty_N.
  case_decide; [done|].
  destruct (pretty_N_go_head (N.pos p) "") as [->|(c & rest & -> & Hc)];
    [done|].
  intros [= -> _]. vm_compute in Hc. lia.
Qed.

Lemma answer_mapping_no_wrapper_key (m : gmap string json) :
  answer_mapping m → m !! "user_answers" = None.
Proof.
  intros Hm. destruct (m !! "user_answers") as [v|] eqn:Hv; [|done].
  destruct (Hm "user_answers") as [id Hid]; [by rewrite Hv|].
  by destruct (str_not_wrapper_key id).
Qed.
End normalization.






(** C7: for every answer mapping, the payload that nests it under the
    wrapper key normalizes to the same mapping as the mapping itself, which
    is the mapping unchanged, value by value; a payload without the wrapper
    key is the answer mapping, whatever its keys. *)
Theorem normalize_wrapped (m : gmap string json) :
  answer_mapping m →
  normalize (JObj {["user_answers" := JObj m]}) = normalize (JObj m) ∧
  normalize (JObj m) = JObj m ∧
  (∀ p : gmap string json,
     p !! "user_answers" = None → normalize (JObj p) = JObj p) ∧
  (∀ p : gmap string json,
     p !! "user_answers" = Some (JObj m) → normalize (JObj p) = JObj m).
Proof.
  intros Hm%answer_mapping_no_wrapper_key.
  unfold normalize. rewrite Hm, lookup_singleton_eq.
  split; [done|]. split; [done|]. split; by intros p ->.
Qed.

Lemma normalize_wrapped_witness :
  answer_mapping {["7" := JInt 1]} ∧
  normalize (JObj {["user_answers" := JObj {["7" := JInt 1]}]})
    = normalize (JObj {["7" := JInt 1]}) ∧
  normalize (JObj {["7" := JInt 1]}) = JObj {["7" := JInt 1]}.
Proof.
  assert (H : answer_mapping {["7" := JInt 1]}).
  { intros k [v Hk]. exists 7.
    apply lookup_singleton_Some in Hk as [<- _]. reflexivity. }
  split; [exact H|].
  destruct (normalize_wrapped _ H) as (H1 & H2 & _). by split.
Defined.




(** ** Access policy *)

Section access.
Implicit Types (u : User) (db : DB).




(** The guard of [POST /results/submit] is the policy's decision for
    [SubmitTest] on the account named in the submission. *)
Lemma submit_test_forbidden (s : TestSubmission) db u :
  (submit_test s db u).1 = HTTPException 403 ↔
  canAccess (role u) (user_id_of u) (s_user_id s) SubmitTest = false.
Proof.
  unfold submit_test, canAccess.
  destruct (bool_decide (s_user_id s ≠ user_id_of u)
            && bool_decide (role u ≠ ADMIN)); simpl; [done|].
  destruct (submit_test_and_calculate_score _ _ _ _) as [[r|] db'];
    simpl; split; discriminate.
Qed.

(** The guard of [GET /results/{result_id}] is the policy's decision for
    [ReadResult] on the account the result belongs to. *)
Lemma get_result_forbidden (result_id : Z) db u (r : Result) :
  find (fun r => r_id r =? result_id) (results db) = Some r →
  (get_result result_id db u = HTTPException 403 ↔
   canAccess (role u) (user_id_of u) (r_user_id r) ReadResult = false) ∧
  (get_result result_id db u = Ok r ↔
   canAccess (role u) (user_id_of u) (r_user_id r) ReadResult = true).
Proof.
  unfold get_result, canAccess. intros ->.
  destruct (bool_decide (r_user_id r ≠ user_id_of u)
            && bool_decide (role u ≠ ADMIN)); simpl;
    repeat split; done.
Qed.

(** [get_current_admin] is the policy's decision for every operation
    reserved to administrators. *)
Lemma get_current_admin_allowed u (owner : Z) (op : operation) :
  self_permitted op = false →
  (get_current_admin u = Ok u ↔
   canAccess (role u) (user_id_of u) owner op = true).
Proof.
  unfold get_current_admin, canAccess.
  intros Hop. destruct op; try discriminate Hop;
    destruct (bool_decide (role u ≠ ADMIN)); simpl; split; done.
Qed.
End access.


(** ** Token codec *)

Section tokens.
Context {J : Jose} (cfg : settings).



Lemma verify_token_bad_signature now alg body signature :
  signature ≠ hmac (SECRET_KEY cfg) alg body →
  verify_token cfg now (Compact alg body signature) = Returns None.
Proof.
  intros Hs. unfold verify_token. simpl.
  destruct (negb (bool_decide (alg ∈ [ALGORITHM cfg]))); [done|].
  apply String.eqb_neq in Hs. by rewrite Hs.
Qed.

(** A token the codec issued passes the algorithm and signature checks;
    what is left are the checks of its claims. *)
Lemma jwt_decode_encoded now c :
  jwt_decode (jwt_encode c (SECRET_KEY cfg) (ALGORITHM cfg))
    (SECRET_KEY cfg) [ALGORITHM cfg] now =
  (_ ← validate_exp c now; _ ← validate_other c now; Returns c).
Proof.
  unfold jwt_encode. simpl.
  rewrite bool_decide_eq_true_2 by set_solver. simpl.
  by rewrite String.eqb_refl.
Qed.

(** What [create_access_token] returns and how it leaves the store. *)
Lemma create_access_token_run (h : heap) data d expires_delta now :
  h !! data = Some d →
  create_access_token cfg data expires_delta now h =
  Some (jwt_encode (<["exp" := JInt (expiry cfg expires_delta now)]> d)
          (SECRET_KEY cfg) (ALGORITHM cfg),
        <[fresh (dom h) := <["exp" := JInt (expiry cfg expires_delta now)]> d]>
          (<[fresh (dom h) := d]> h)).
Proof.
  intros Hd. unfold create_access_token, st_bind, dict_copy, dict_update,
    dict_read. rewrite Hd. simpl.
  rewrite lookup_insert_eq. simpl. by rewrite lookup_insert_eq.
Qed.

End tokens.


(** C9: [create_access_token] returns a token and leaves the dictionary it
    was given, and every other dictionary of the store, as they were; the
    expiry is written to a copy. *)
Theorem create_access_token_frame {J : Jose} (cfg : settings) (h : heap)
    (data : loc) (d : claims) (expires_delta : option Z) (now : Z) :
  h !! data = Some d →
  ∃ tok h',
    create_access_token cfg data expires_delta now h = Some (tok, h') ∧
    h' !! data = Some d ∧
    (∀ l, is_Some (h !! l) → h' !! l = h !! l) ∧
    tok = jwt_encode (<["exp" := JInt (expiry cfg expires_delta now)]> d)
            (SECRET_KEY cfg) (ALGORITHM cfg).
Proof.
  intros Hd. rewrite (create_access_token_run cfg h data d _ _ Hd).
  eexists _, _. split; [done|].
  assert (Hframe : ∀ l, is_Some (h !! l) →
    <[fresh (dom h) := <["exp" := JInt (expiry cfg expires_delta now)]> d]>
      (<[fresh (dom h) := d]> h) !! l = h !! l).
  { intros l Hl. apply elem_of_dom in Hl.
    assert (fresh (dom h) ≠ l) by (intros <-; by apply (is_fresh (dom h))).
    by rewrite !lookup_insert_ne. }
  split; [|by split]. rewrite Hframe; [done|by rewrite Hd].
Qed.

Lemma create_access_token_frame_witness :
  store0 !! 1%positive = Some alice_claims ∧
  ∃ tok h',
    create_access_token (J := jose_model) default_settings 1%positive
      (Some 1800) 1000 store0 = Some (tok, h') ∧
    h' !! 1%positive = Some alice_claims.
Proof.
  assert (H : store0 !! 1%positive = Some alice_claims)
    by (vm_compute; reflexivity).
  split; [exact H|].
  destruct (create_access_token_frame (J := jose_model) default_settings
              store0 1%positive alice_claims (Some 1800) 1000 H)
    as (tok & h' & H1 & H2 & _).
  exists tok, h'. by split.
Defined.






(** * Further properties of the scoring engine *)

#[local] Set Warnings "-clear-no-such-hyp".

Section scoring_more.
Implicit Types (m : gmap string json) (q : Question) (total : Q).


Lemma grade_loop_agree m m' qs total :
  Forall (fun q => m !! str (q_id q) = m' !! str (q_id q)) qs →
  grade_loop (JObj m) total qs = grade_loop (JObj m') total qs.
Proof.
  intros Hqs. revert total.
  induction Hqs as [|q qs Hq _ IH]; intros total; simpl; [done|].
  rewrite !grade_question_mapping, Hq. simpl. apply IH.
Qed.

End scoring_more.



(** X2: answers filed under keys that are not identifiers of the graded
    questions are ignored: two answer mappings that agree on the
    identifiers of the questions are graded alike. *)
Theorem grade_loop_irrelevant_keys (m m' : gmap string json)
    (qs : list Question) :
  Forall (fun q => m !! str (q_id q) = m' !! str (q_id q)) qs →
  grade_loop (JObj m) 0%Q qs = grade_loop (JObj m') 0%Q qs.
Proof. apply grade_loop_agree. Qed.

Lemma grade_loop_irrelevant_keys_witness :
  Forall (fun q => ({["7" := JInt 1]} : gmap string json) !! str (q_id q)
                   = ({["7" := JInt 1; "8" := JInt 0]} : gmap string json)
                       !! str (q_id q)) [q7; q9] ∧
  grade_loop (JObj {["7" := JInt 1]}) 0%Q [q7; q9]
    = grade_loop (JObj {["7" := JInt 1; "8" := JInt 0]}) 0%Q [q7; q9].
Proof.
  assert (H : Forall (fun q =>
      ({["7" := JInt 1]} : gmap string json) !! str (q_id q)
      = ({["7" := JInt 1; "8" := JInt 0]} : gmap string json)
          !! str (q_id q)) [q7; q9]).
  { repeat constructor; vm_compute; reflexivity. }
  split; [exact H|]. exact (grade_loop_irrelevant_keys _ _ _ H).
Defined.



Section nested_values.
Implicit Types (db : DB) (q : Question).

Lemma eq_str_true v k : eq_str v k = true ↔ v = JStr k.
Proof.
  destruct v; simpl; try (split; [discriminate|congruence]).
  rewrite String.eqb_eq. split; congruence.
Qed.

Lemma existsb_eq_str l k :
  existsb (fun v => eq_str v k) l = true ↔ JStr k ∈ l.
Proof.
  rewrite existsb_exists. split.
  - intros (v & Hin & ->%eq_str_true). by apply list_elem_of_In.
  - intros Hin. exists (JStr k). split; [by apply list_elem_of_In|].
    by apply eq_str_true.
Qed.

(** Whether the identifier of some question is an element of the list. *)
Lemma answered_in_list l qs :
  existsb (fun q => existsb (fun v => eq_str v (str (q_id q))) l) qs = true
  ↔ Exists (fun q => JStr (str (q_id q)) ∈ l) qs.
Proof.
  rewrite existsb_exists, Exists_exists.
  setoid_rewrite existsb_eq_str. setoid_rewrite <- list_elem_of_In. done.
Qed.

(** The loop on a list: it stops with [TypeError] at the first question
    whose identifier is an element, and otherwise answers nothing. *)
Lemma grade_loop_list l qs total :
  grade_loop (JArr l) total qs =
  if existsb (fun q => existsb (fun v => eq_str v (str (q_id q))) l) qs
  then Raises TypeError else Returns total.
Proof.
  induction qs as [|q qs IH]; simpl; [done|].
  unfold grade_question. simpl.
  destruct (existsb (fun v => eq_str v (str (q_id q))) l); simpl; [done|].
  apply IH.
Qed.
End nested_values.

(** X4: when the value nested under the wrapper key is [null], a boolean
    or a number, a submission to a test paper that has questions fails:
    no result is returned and the store is unchanged. *)
Theorem nested_scalar_fails (db : DB) (uid tpid : Z)
    (p : gmap string json) (v : json) :
  resolves db tpid → questions_of db tpid ≠ [] →
  p !! "user_answers" = Some v →
  match v with
  | JNull | JBool _ | JInt _ | JFloat _ => True
  | JStr _ | JArr _ | JObj _ => False
  end →
  submit_test_and_calculate_score db uid tpid (JObj p) = (None, db).
Proof.
  intros Hp Hq Hv Hs. apply submit_raised with TypeError.
  unfold normalize. rewrite Hv.
  destruct (questions_of db tpid) as [|q qs]; [done|].
  by destruct v.
Qed.

Lemma nested_scalar_fails_witness :
  submit_test_and_calculate_score db0 10 1
    (JObj {["user_answers" := JFloat NaN]}) = (None, db0).
Proof.
  apply (nested_scalar_fails db0 10 1 _ (JFloat NaN)).
  - eexists; reflexivity.
  - vm_compute; discriminate.
  - vm_compute; reflexivity.
  - exact I.
Defined.

(** X5: when a list is nested under the wrapper key, a submission to a
    test paper that has questions fails as soon as the identifier of one of
    the questions is an element of the list, and otherwise stores a result
    of total 0 whose answers are the list. *)
Theorem nested_list_outcome (db : DB) (uid tpid : Z)
    (p : gmap string json) (l : list json) :
  resolves db tpid → questions_of db tpid ≠ [] →
  p !! "user_answers" = Some (JArr l) →
  (Exists (fun q => JStr (str (q_id q)) ∈ l) (questions_of db tpid) →
   submit_test_and_calculate_score db uid tpid (JObj p) = (None, db)) ∧
  (Forall (fun q => JStr (str (q_id q)) ∉ l) (questions_of db tpid) →
   ∃ r db',
     submit_test_and_calculate_score db uid tpid (JObj p) = (Some r, db') ∧
     final_score r = 0%Q ∧ user_answers r = JArr l ∧
     results db' = results db ++ [r]).
Proof.
  intros Hp Hq Hv.
  assert (Hn : normalize (JObj p) = JArr l) by (unfold normalize; by rewrite Hv).
  split.
  - intros He. apply submit_raised with TypeError.
    rewrite Hn, grade_loop_list. apply answered_in_list in He.
    by rewrite He.
  - intros Hf.
    assert (Hg : grade_loop (normalize (JObj p)) 0%Q (questions_of db tpid)
                 = Returns 0%Q).
    { rewrite Hn, grade_loop_list.
      destruct (existsb _ _) eqn:E; [|done].
      apply answered_in_list, Exists_exists in E as (q & Hin & Hq').
      rewrite Forall_forall in Hf. by destruct (Hf q Hin). }
    rewrite (submit_graded _ _ _ _ _ Hp Hq Hg), Hn. simpl. eauto 10.
Qed.

Lemma nested_list_outcome_witness :
  submit_test_and_calculate_score db0 10 1
    (JObj {["user_answers" := JArr [JStr "7"]]}) = (None, db0) ∧
  ∃ r db',
    submit_test_and_calculate_score db0 10 1
      (JObj {["user_answers" := JArr [JInt 7]]}) = (Some r, db') ∧
    final_score r = 0%Q ∧ user_answers r = JArr [JInt 7] ∧
    results db' = results db0 ++ [r].
Proof.
  assert (Hp : resolves db0 1) by (eexists; reflexivity).
  assert (Hq : questions_of db0 1 ≠ []) by (vm_compute; discriminate).
  assert (H1 : ({["user_answers" := JArr [JStr "7"]]} : gmap string json)
                 !! "user_answers" = Some (JArr [JStr "7"]))
    by (vm_compute; reflexivity).
  assert (H2 : ({["user_answers" := JArr [JInt 7]]} : gmap string json)
                 !! "user_answers" = Some (JArr [JInt 7]))
    by (vm_compute; reflexivity).
  split.
  - apply (proj1 (nested_list_outcome db0 10 1 _ _ Hp Hq H1)).
    apply Exists_cons_hd. change (str (q_id q7)) with "7". by left.
  - apply (proj2 (nested_list_outcome db0 10 1 _ _ Hp Hq H2)).
    change (questions_of db0 1) with [q7; q9].
    repeat constructor; intros H; apply list_elem_of_singleton in H;
      discriminate.
Defined.



(** * The store of results *)

Section keyed_rows.
Context {A : Type} (key : A → Z).
Implicit Types (l : list A) (k : Z) (x : A).

Lemma find_key_Some l k x :
  find (fun y => key y =? k) l = Some x → x ∈ l ∧ key x = k.
Proof.
  intros H. apply find_some in H as [Hin Hk].
  split; [by apply list_elem_of_In|lia].
Qed.

Lemma find_key_None l k :
  find (fun y => key y =? k) l = None ↔ k ∉ key <$> l.
Proof.
  induction l as [|y l IH]; simpl; [set_solver|].
  destruct (key y =? k) eqn:E.
  - apply Z.eqb_eq in E. split; [done|]. intros []. set_solver.
  - apply Z.eqb_neq in E. rewrite IH. set_solver.
Qed.

Lemma find_key_NoDup l x :
  NoDup (key <$> l) → x ∈ l → find (fun y => key y =? key x) l = Some x.
Proof.
  induction l as [|y l IH]; simpl; [set_solver|].
  intros [Hy Hl]%NoDup_cons [->|Hin]%elem_of_cons.
  - by rewrite Z.eqb_refl.
  - destruct (key y =? key x) eqn:E; [|by apply IH].
    apply Z.eqb_eq in E. destruct Hy. rewrite E. by apply list_elem_of_fmap_2.
Qed.

Lemma find_key_snoc l k x :
  k ∉ key <$> l → key x = k →
  find (fun y => key y =? k) (l ++ [x]) = Some x.
Proof.
  intros Hk Hx. induction l as [|y l IH]; simpl.
  - by rewrite Hx, Z.eqb_refl.
  - destruct (key y =? k) eqn:E; [|apply IH; set_solver].
    apply Z.eqb_eq in E. set_solver.
Qed.

Lemma find_key_snoc_ne l k x :
  key x ≠ k →
  find (fun y => key y =? k) (l ++ [x]) = find (fun y => key y =? k) l.
Proof.
  intros Hx. induction l as [|y l IH]; simpl.
  - by apply Z.eqb_neq in Hx as ->.
  - by destruct (key y =? k).
Qed.

Lemma remove_first_sublist l k :
  sublist (remove_first (fun y => key y =? k) l) l.
Proof.
  induction l as [|y l IH]; simpl; [done|].
  destruct (key y =? k); [by apply sublist_cons|by apply sublist_skip].
Qed.

Lemma remove_first_find l k :
  NoDup (key <$> l) →
  find (fun y => key y =? k) (remove_first (fun y => key y =? k) l) = None.
Proof.
  induction l as [|y l IH]; simpl; [done|].
  intros [Hy Hl]%NoDup_cons. destruct (key y =? k) eqn:E; simpl.
  - apply Z.eqb_eq in E. apply find_key_None. by rewrite <- E.
  - rewrite E. by apply IH.
Qed.

Lemma remove_first_find_ne l k k' :
  k' ≠ k →
  find (fun y => key y =? k') (remove_first (fun y => key y =? k) l)
    = find (fun y => key y =? k') l.
Proof.
  intros Hk. induction l as [|y l IH]; simpl; [done|].
  destruct (key y =? k) eqn:E; simpl.
  - apply Z.eqb_eq in E. assert ((key y =? k') = false) as -> by lia. done.
  - by rewrite IH.
Qed.

Lemma update_first_keys l k (f : A → A) :
  (∀ y, key (f y) = key y) →
  key <$> update_first (fun y => key y =? k) f l = key <$> l.
Proof.
  intros Hf. induction l as [|y l IH]; simpl; [done|].
  destruct (key y =? k); csimpl; [by rewrite Hf|by rewrite IH].
Qed.

Lemma update_first_find l k (f : A → A) :
  (∀ y, key (f y) = key y) →
  find (fun y => key y =? k) (update_first (fun y => key y =? k) f l)
    = f <$> find (fun y => key y =? k) l.
Proof.
  intros Hf. induction l as [|y l IH]; simpl; [done|].
  destruct (key y =? k) eqn:E; simpl.
  - by rewrite Hf, E.
  - by rewrite E, IH.
Qed.

Lemma update_first_find_ne l k k' (f : A → A) :
  (∀ y, key (f y) = key y) → k' ≠ k →
  find (fun y => key y =? k') (update_first (fun y => key y =? k) f l)
    = find (fun y => key y =? k') l.
Proof.
  intros Hf Hk. induction l as [|y l IH]; simpl; [done|].
  destruct (key y =? k) eqn:E; simpl.
  - apply Z.eqb_eq in E. rewrite Hf.
    assert ((key y =? k') = false) as -> by lia. done.
  - by rewrite IH.
Qed.
End keyed_rows.

Section result_store.
Implicit Types (db : DB) (r : Result).

Lemma results_wf_fresh db :
  results_wf db → next_result_id db ∉ r_id <$> results db.
Proof.
  intros [_ Hlt] (r & Hr & Hin)%list_elem_of_fmap.
  rewrite Forall_forall in Hlt. apply Hlt in Hin. lia.
Qed.

Lemma add_result_wf db uid tpid score answers :
  results_wf db → results_wf (add_result db uid tpid score answers).2.
Proof.
  intros Hwf. pose proof (results_wf_fresh db Hwf) as Hfresh.
  destruct Hwf as [Hnd Hlt]. split; simpl.
  - rewrite fmap_app. apply NoDup_app. split; [done|].
    split; [|apply NoDup_singleton]. intros k Hk ->%list_elem_of_singleton.
    done.
  - apply Forall_app. split; [|repeat constructor; simpl; lia].
    eapply Forall_impl; [exact Hlt|]. simpl. intros; lia.
Qed.
End result_store.

(** X7: a submission that returns a result keeps the keys of the stored
    results distinct, files the result under a new key, under the user and
    the test paper it was made for and with the normalized answers, and
    leaves every earlier result as it was: the result is read back by its
    key, and the user's results are the earlier ones and the new one. *)
Theorem submit_then_read (db : DB) (uid tpid : Z) (payload : json)
    (r : Result) (db' : DB) :
  results_wf db →
  submit_test_and_calculate_score db uid tpid payload = (Some r, db') →
  results_wf db' ∧
  get_result_by_id db' (r_id r) = Some r ∧
  (∀ id, id ≠ r_id r → get_result_by_id db' id = get_result_by_id db id) ∧
  get_results_by_user db' uid ≡ₚ get_results_by_user db uid ++ [r] ∧
  r_user_id r = uid ∧ r_test_paper_id r = tpid ∧
  user_answers r = normalize payload ∧
  questions db' = questions db ∧ test_papers db' = test_papers db.
Proof.
  intros Hwf (total & _ & Hadd)%submit_Some_inv.
  pose proof (add_result_wf db uid tpid total (normalize payload) Hwf) as Hwf'.
  pose proof (results_wf_fresh db Hwf) as Hfresh.
  rewrite Hadd in Hwf'. injection Hadd as <- <-.
  split; [exact Hwf'|]. unfold get_result_by_id, get_results_by_user. simpl.
  split; [by apply find_key_snoc|].
  split; [intros id Hid; by apply find_key_snoc_ne|].
  split; [|done].
  rewrite filter_app, filter_cons_True by done. done.
Qed.

Lemma submit_then_read_witness :
  results_wf db0 ∧
  ∃ r db',
    submit_test_and_calculate_score db0 10 1 (JObj {["7" := JInt 1]})
      = (Some r, db') ∧
    get_result_by_id db' (r_id r) = Some r ∧
    get_results_by_user db' 10 ≡ₚ get_results_by_user db0 10 ++ [r].
Proof.
  assert (Hwf : results_wf db0).
  { split; [apply NoDup_nil_2|apply Forall_nil_2]. }
  set (ar := add_result db0 10 1 (0 + 1)%Q (JObj {["7" := JInt 1]})).
  assert (Hs : submit_test_and_calculate_score db0 10 1
                 (JObj {["7" := JInt 1]}) = (Some ar.1, ar.2))
    by (vm_compute; reflexivity).
  split; [exact Hwf|]. exists ar.1, ar.2. split; [exact Hs|].
  destruct (submit_then_read _ _ _ _ _ _ Hwf Hs) as (_ & H1 & _ & H2 & _).
  by split.
Defined.

(** X8: after [POST /results/submit] has answered with a result, [GET
    /results/{result_id}] returns that result to the account it was
    submitted for and to every administrator, and answers 403 to every
    other standard account. *)
Theorem submitted_result_readable (s : TestSubmission) (db db' : DB)
    (u reader : User) (r : Result) :
  results_wf db →
  submit_test s db u = (Ok r, db') →
  get_result (r_id r) db' reader =
    if canAccess (role reader) (user_id_of reader) (s_user_id s) ReadResult
    then Ok r else HTTPException 403.
Proof.
  intros Hwf. unfold submit_test.
  destruct (bool_decide (s_user_id s ≠ user_id_of u)
            && bool_decide (role u ≠ ADMIN)); [done|].
  destruct (submit_test_and_calculate_score db (s_user_id s)
              (s_test_paper_id s) (JObj (s_user_answers s)))
    as [[r'|] db''] eqn:Hs; [|done].
  intros [= -> ->].
  destruct (submit_then_read _ _ _ _ _ _ Hwf Hs) as (_ & Hget & _ & _ & Hu & _).
  unfold get_result, get_result_by_id in *. rewrite Hget, Hu.
  unfold canAccess.
  by destruct (bool_decide (s_user_id s ≠ user_id_of reader)
               && bool_decide (role reader ≠ ADMIN)).
Qed.

Lemma submitted_result_readable_witness :
  results_wf db0 ∧
  ∃ r db',
    submit_test {| s_user_id := 10; s_test_paper_id := 1;
                   s_user_answers := {["7" := JInt 1]} |} db0 alice
      = (Ok r, db') ∧
    get_result (r_id r) db' alice = Ok r ∧
    get_result (r_id r) db'
      {| user_id_of := 11; email := "bob@example.org"; role := USER |}
      = HTTPException 403.
Proof.
  assert (Hwf : results_wf db0).
  { split; [apply NoDup_nil_2|apply Forall_nil_2]. }
  set (ar := add_result db0 10 1 (0 + 1)%Q (JObj {["7" := JInt 1]})).
  assert (Hs : submit_test {| s_user_id := 10; s_test_paper_id := 1;
                              s_user_answers := {["7" := JInt 1]} |}
                 db0 alice = (Ok ar.1, ar.2))
    by (vm_compute; reflexivity).
  split; [exact Hwf|]. exists ar.1, ar.2. split; [exact Hs|]. split.
  - exact (submitted_result_readable _ _ _ _ alice _ Hwf Hs).
  - exact (submitted_result_readable _ _ _ _
             {| user_id_of := 11; email := "bob@example.org"; role := USER |}
             _ Hwf Hs).
Defined.

(** X9: submitting is not idempotent: a submission that succeeded succeeds
    again on the store it left, with the same total and answers, and files
    a second result under a different key: the store then holds the
    earlier results and the two new ones. *)
Theorem resubmission_creates_second_result (db db1 : DB) (uid tpid : Z)
    (payload : json) (r1 : Result) :
  submit_test_and_calculate_score db uid tpid payload = (Some r1, db1) →
  ∃ r2 db2,
    submit_test_and_calculate_score db1 uid tpid payload = (Some r2, db2) ∧
    r_id r2 ≠ r_id r1 ∧
    final_score r2 = final_score r1 ∧
    user_answers r2 = user_answers r1 ∧
    results db2 = results db ++ [r1; r2].
Proof.
  intros Hs.
  assert (Hp : resolves db tpid ∧ questions_of db tpid ≠ []).
  { unfold submit_test_and_calculate_score in Hs.
    rewrite submit_body_unfold in Hs. unfold resolves.
    destruct (find _ _); [|done].
    by destruct (questions_of db tpid). }
  destruct Hp as [Hp Hq].
  apply submit_Some_inv in Hs as (total & Hg & Hadd).
  injection Hadd as <- <-.
  eexists _, _. split.
  - apply submit_graded with (total := total); [exact Hp|exact Hq|exact Hg].
  - simpl. split; [lia|]. split; [done|]. split; [done|].
    by rewrite <- app_assoc.
Qed.

Lemma resubmission_creates_second_result_witness :
  ∃ r1 db1 r2 db2,
    submit_test_and_calculate_score db0 10 1 (JObj {["7" := JInt 1]})
      = (Some r1, db1) ∧
    submit_test_and_calculate_score db1 10 1 (JObj {["7" := JInt 1]})
      = (Some r2, db2) ∧
    r_id r2 ≠ r_id r1 ∧ results db2 = results db0 ++ [r1; r2].
Proof.
  set (ar := add_result db0 10 1 (0 + 1)%Q (JObj {["7" := JInt 1]})).
  assert (Hs : submit_test_and_calculate_score db0 10 1
                 (JObj {["7" := JInt 1]}) = (Some ar.1, ar.2))
    by (vm_compute; reflexivity).
  destruct (resubmission_creates_second_result _ _ _ _ _ _ Hs)
    as (r2 & db2 & H2 & Hne & _ & _ & Hres).
  exists ar.1, ar.2, r2, db2. by repeat split.
Defined.

(** X10: [delete_result] reports whether a result with the key exists;
    afterwards no result has the key, every other result is read back as
    before, the keys stay distinct, and test papers and questions are
    untouched. *)
Theorem delete_result_effect (db : DB) (result_id : Z) :
  results_wf db →
  ((delete_result db result_id).1 = true ↔
   is_Some (get_result_by_id db result_id)) ∧
  ((delete_result db result_id).1 = false →
   (delete_result db result_id).2 = db) ∧
  get_result_by_id (delete_result db result_id).2 result_id = None ∧
  (∀ id, id ≠ result_id →
     get_result_by_id (delete_result db result_id).2 id
       = get_result_by_id db id) ∧
  results_wf (delete_result db result_id).2 ∧
  questions (delete_result db result_id).2 = questions db ∧
  test_papers (delete_result db result_id).2 = test_papers db.
Proof.
  intros [Hnd Hlt]. unfold delete_result, get_result_by_id.
  destruct (find _ (results db)) as [r|] eqn:Hf; simpl.
  - split; [by split; eauto|]. split; [done|].
    split; [by apply remove_first_find|].
    split; [intros id Hid; by apply remove_first_find_ne|].
    split; [|done].
    pose proof (remove_first_sublist r_id (results db) result_id) as Hsub.
    split; simpl.
    + eapply sublist_NoDup; [exact Hnd|]. by apply fmap_sublist.
    + rewrite Forall_forall in Hlt |- *. intros x Hx. apply Hlt.
      by apply (elem_of_sublist _ _ x Hx Hsub).
  - split; [split; [done|by intros []]|]. split; [done|].
    split; [done|]. by repeat split.
Qed.

Lemma delete_result_effect_witness :
  results_wf db0 ∧
  (delete_result db0 1).1 = false ∧ (delete_result db0 1).2 = db0.
Proof.
  assert (Hwf : results_wf db0).
  { split; [apply NoDup_nil_2|apply Forall_nil_2]. }
  split; [exact Hwf|]. split; [reflexivity|].
  apply (proj1 (proj2 (delete_result_effect db0 1 Hwf))). reflexivity.
Defined.

(** X11: [DELETE /results/{result_id}] answers 403 to a standard account
    and leaves the store unchanged; for an administrator it answers 404
    with the store unchanged when no result has the key, and otherwise
    removes that result. *)
Theorem delete_result_by_id_outcomes (result_id : Z) (db : DB) (u : User) :
  results_wf db →
  (role u = USER →
   delete_result_by_id result_id db u = (HTTPException 403, db)) ∧
  (role u = ADMIN → get_result_by_id db result_id = None →
   delete_result_by_id result_id db u = (HTTPException 404, db)) ∧
  (role u = ADMIN → is_Some (get_result_by_id db result_id) →
   ∃ db', delete_result_by_id result_id db u = (Ok (), db') ∧
          get_result_by_id db' result_id = None ∧
          ∀ id, id ≠ result_id →
            get_result_by_id db' id = get_result_by_id db id).
Proof.
  intros Hwf.
  destruct (delete_result_effect db result_id Hwf)
    as (Hb & Hsame & Hgone & Hkeep & _).
  unfold delete_result_by_id, requires_admin, get_current_admin.
  split; [by intros ->|]. split.
  - intros -> Hnone. simpl.
    destruct (delete_result db result_id) as [[] db'] eqn:Hd; simpl in *.
    + apply proj1 in Hb. rewrite Hnone in Hb. by destruct (Hb eq_refl).
    + by rewrite Hsame.
  - intros -> Hsome. simpl.
    destruct (delete_result db result_id) as [[] db'] eqn:Hd; simpl in *.
    + eauto.
    + apply proj2 in Hb. by specialize (Hb Hsome).
Qed.

Lemma delete_result_by_id_outcomes_witness :
  results_wf db0 ∧
  delete_result_by_id 1 db0 alice = (HTTPException 403, db0).
Proof.
  assert (Hwf : results_wf db0).
  { split; [apply NoDup_nil_2|apply Forall_nil_2]. }
  split; [exact Hwf|].
  apply (proj1 (delete_result_by_id_outcomes 1 db0 alice Hwf)). reflexivity.
Defined.



(** * Test papers and questions *)

Section keyed_rows_removal.
Context {A : Type} (key : A → Z).

(** Removing the row found under the key of [x] removes [x] and nothing
    else, when keys are distinct. *)
Lemma remove_first_elem_of (l : list A) (x : A) :
  NoDup (key <$> l) → x ∈ l →
  ∀ y, y ∈ remove_first (fun z => key z =? key x) l ↔ y ∈ l ∧ y ≠ x.
Proof.
  induction l as [|y0 l IH]; simpl; [set_solver|].
  intros [Hy0 Hl]%NoDup_cons Hx y.
  assert (Hnot : ∀ z, z ∈ l → key z ≠ key y0).
  { intros z Hz Hk. apply Hy0. rewrite <- Hk. by apply list_elem_of_fmap_2. }
  destruct (key y0 =? key x) eqn:E.
  - apply Z.eqb_eq in E.
    assert (x = y0) as ->.
    { apply elem_of_cons in Hx as [->|Hx]; [done|].
      by destruct (Hnot x Hx). }
    split.
    + intros Hin. split; [by right|]. intros ->. by destruct (Hnot y0 Hin).
    + intros [[->|Hin]%elem_of_cons Hne]; done.
  - apply Z.eqb_neq in E.
    assert (Hx' : x ∈ l).
    { apply elem_of_cons in Hx as [->|Hx]; [done|done]. }
    rewrite elem_of_cons, (IH Hl Hx' y), elem_of_cons.
    split; [|tauto]. intros [->|[? ?]]; [|tauto].
    split; [tauto|]. intros ->. done.
Qed.
End keyed_rows_removal.

Lemma filter_none {A} (P : A → Prop) `{!∀ x, Decision (P x)} (l : list A) :
  (∀ x, x ∈ l → ¬ P x) → filter P l = [].
Proof.
  intros Hno. destruct (filter P l) as [|y k] eqn:E; [done|].
  assert (Hy : y ∈ filter P l) by (rewrite E; by left).
  apply list_elem_of_filter in Hy as [Hy Hin]. by destruct (Hno y Hin).
Qed.

Section catalogue.
Implicit Types (db : DB).

Lemma resolves_find db tpid :
  resolves db tpid ↔ tpid ∈ tp_id <$> test_papers db.
Proof.
  unfold resolves. destruct (find _ _) as [tp|] eqn:Hf.
  - apply (find_key_Some tp_id) in Hf as [Hin <-].
    split; [intros _; by apply list_elem_of_fmap_2|eauto].
  - apply (find_key_None tp_id) in Hf. split; [by intros []|done].
Qed.

(** Whether a submission finds the test paper and its questions depends
    on the keys of the test papers and on the questions only. *)
Lemma submit_result_ext db1 db2 uid tpid payload :
  (resolves db1 tpid ↔ resolves db2 tpid) →
  questions db1 = questions db2 →
  next_result_id db1 = next_result_id db2 →
  (submit_test_and_calculate_score db1 uid tpid payload).1
    = (submit_test_and_calculate_score db2 uid tpid payload).1.
Proof.
  intros Hr Hq Hn. unfold submit_test_and_calculate_score.
  rewrite !submit_body_unfold. unfold resolves, questions_of in *.
  rewrite <- Hq.
  destruct (find _ (test_papers db1)) as [tp1|],
           (find _ (test_papers db2)) as [tp2|].
  - destruct (filter _ (questions db1)) as [|q qs]; [done|].
    destruct (grade_loop (normalize payload) 0%Q (q :: qs)); [|done].
    unfold add_result. simpl. by rewrite Hn.
  - destruct (proj1 Hr) as [? [=]]; eauto.
  - destruct (proj2 Hr) as [? [=]]; eauto.
  - done.
Qed.
End catalogue.

(** X13: [delete_test_paper] returns False and changes nothing when the
    test paper does not exist; otherwise it removes the test paper together
    with its questions and its results, leaves the questions and results of
    every other test paper as they were, and a later submission to the
    deleted test paper returns no result. *)
Theorem delete_test_paper_cascade (db : DB) (test_paper_id : Z) :
  catalogue_wf db →
  (¬ resolves db test_paper_id →
   delete_test_paper db test_paper_id = (false, db)) ∧
  (resolves db test_paper_id →
   ∃ db', delete_test_paper db test_paper_id = (true, db') ∧
     ¬ resolves db' test_paper_id ∧
     questions_of db' test_paper_id = [] ∧
     get_results_by_test_paper db' test_paper_id = [] ∧
     (∀ id, id ≠ test_paper_id →
        (resolves db' id ↔ resolves db id) ∧
        questions_of db' id = questions_of db id ∧
        get_results_by_test_paper db' id
          = get_results_by_test_paper db id) ∧
     ∀ uid payload,
       submit_test_and_calculate_score db' uid test_paper_id payload
         = (None, db')).
Proof.
  intros [Hnd _]. unfold delete_test_paper, get_test_paper_by_id.
  split.
  - unfold resolves. destruct (find _ _); [intros []; eauto|done].
  - intros [tp Hf]. rewrite Hf.
    pose proof (find_key_Some tp_id _ _ _ Hf) as [_ Hid]. rewrite Hid.
    eexists. split; [done|].
    assert (Hgone : ¬ resolves
      {| test_papers := remove_first (fun tp => tp_id tp =? test_paper_id)
                          (test_papers db);
         questions := filter (fun q => q_test_paper_id q ≠ test_paper_id)
                        (questions db);
         results := filter (fun r => r_test_paper_id r ≠ test_paper_id)
                      (results db);
         next_result_id := next_result_id db |} test_paper_id).
    { unfold resolves. simpl. rewrite (remove_first_find tp_id) by done.
      by intros []. }
    split; [exact Hgone|].
    unfold questions_of, get_results_by_test_paper. simpl.
    rewrite !list_filter_filter.
    split; [by apply filter_none; intros ? _ [? ?]|].
    split; [by apply filter_none; intros ? _ [? ?]|].
    split.
    + intros id Hne. unfold resolves. simpl.
      rewrite (remove_first_find_ne tp_id) by done.
      split; [done|]. rewrite !list_filter_filter.
      split; apply list_filter_iff; intros x; split;
        try (by intros [? ?]); intros Hx; split; congruence.
    + intros uid payload. apply submit_not_found. by left.
Qed.

Lemma delete_test_paper_cascade_witness :
  catalogue_wf db0 ∧ resolves db0 1 ∧
  ∃ db', delete_test_paper db0 1 = (true, db') ∧
         questions_of db' 1 = [] ∧
         questions_of db' 2 = questions_of db0 2.
Proof.
  assert (Hwf : catalogue_wf db0).
  { split; vm_compute; repeat constructor; set_solver. }
  assert (Hr : resolves db0 1) by (eexists; reflexivity).
  split; [exact Hwf|]. split; [exact Hr|].
  destruct (proj2 (delete_test_paper_cascade db0 1 Hwf) Hr)
    as (db' & Hd & _ & Hq & _ & Hother & _).
  exists db'. split; [exact Hd|]. split; [exact Hq|].
  apply (Hother 2). lia.
Defined.

(** X14: [delete_question] returns False and changes nothing when no
    question has the key; otherwise it removes that question and no other,
    and leaves test papers and results alone. When the question was the
    only one of its test paper, a later submission to the test paper
    returns no result. *)
Theorem delete_question_effect (db : DB) (q : Question) :
  catalogue_wf db →
  (q_id q ∉ q_id <$> questions db →
   delete_question db (q_id q) = (false, db)) ∧
  (q ∈ questions db →
   ∃ db', delete_question db (q_id q) = (true, db') ∧
     (∀ q', q' ∈ questions db' ↔ q' ∈ questions db ∧ q' ≠ q) ∧
     test_papers db' = test_papers db ∧ results db' = results db ∧
     (questions_of db (q_test_paper_id q) = [q] →
      ∀ uid payload,
        submit_test_and_calculate_score db' uid (q_test_paper_id q) payload
          = (None, db'))).
Proof.
  intros [_ Hnd]. unfold delete_question. split.
  - intros Hq. apply (find_key_None q_id) in Hq. by rewrite Hq.
  - intros Hin. rewrite (find_key_NoDup q_id _ _ Hnd Hin).
    eexists. split; [done|]. simpl.
    pose proof (remove_first_elem_of q_id _ _ Hnd Hin) as Hmem.
    split; [exact Hmem|]. split; [done|]. split; [done|].
    intros Hone uid payload. apply submit_not_found. right.
    unfold questions_of in *. simpl.
    apply filter_none. intros q' Hq' Hp.
    apply Hmem in Hq' as [Hq' Hne].
    assert (q' ∈ filter (fun q0 => q_test_paper_id q0 = q_test_paper_id q)
                  (questions db)) by (by apply list_elem_of_filter).
    rewrite Hone in H. by apply list_elem_of_singleton in H.
Qed.

Lemma delete_question_effect_witness :
  catalogue_wf db0 ∧ q5 ∈ questions db0 ∧
  ∃ db', delete_question db0 (q_id q5) = (true, db') ∧
         submit_test_and_calculate_score db' 10 2 (JObj {["5" := JInt 0]})
           = (None, db').
Proof.
  assert (Hwf : catalogue_wf db0).
  { split; vm_compute; repeat constructor; set_solver. }
  assert (Hin : q5 ∈ questions db0) by (vm_compute; set_solver).
  split; [exact Hwf|]. split; [exact Hin|].
  destruct (proj2 (delete_question_effect db0 q5 Hwf) Hin)
    as (db' & Hd & _ & _ & _ & Hsub).
  exists db'. split; [exact Hd|].
  apply (Hsub ltac:(vm_compute; reflexivity)).
Defined.

(** X15: [update_test_paper] returns None and changes nothing when the
    test paper does not exist; otherwise the test paper keeps its key, the
    fields that are not given keep their values, and every submission is
    graded as before the update: whether a test paper is active is never
    consulted. *)
Theorem update_test_paper_keeps_grading (db : DB) (test_paper_id : Z)
    (data : TestPaperUpdate) :
  catalogue_wf db →
  (¬ resolves db test_paper_id →
   update_test_paper db test_paper_id data = (None, db)) ∧
  (resolves db test_paper_id →
   ∃ tp tp' db',
     find (fun tp => tp_id tp =? test_paper_id) (test_papers db) = Some tp ∧
     update_test_paper db test_paper_id data = (Some tp', db') ∧
     tp_id tp' = test_paper_id ∧
     (tu_name data = None → name tp' = name tp) ∧
     (tu_duration_minutes data = None →
      duration_minutes tp' = duration_minutes tp) ∧
     (tu_is_active data = None → is_active tp' = is_active tp) ∧
     find (fun tp => tp_id tp =? test_paper_id) (test_papers db') = Some tp' ∧
     ∀ uid tpid payload,
       (submit_test_and_calculate_score db' uid tpid payload).1
         = (submit_test_and_calculate_score db uid tpid payload).1).
Proof.
  intros [Hnd _]. unfold update_test_paper, get_test_paper_by_id. split.
  - unfold resolves. destruct (find _ _); [intros []; eauto|done].
  - intros [tp Hf]. rewrite Hf.
    pose proof (find_key_Some tp_id _ _ _ Hf) as [_ Hid].
    eexists tp, _, _. split; [done|]. split; [done|]. simpl.
    split; [done|].
    split; [by intros ->|]. split; [by intros ->|]. split; [by intros ->|].
    assert (Hkey : ∀ y, tp_id (apply_test_paper_update data y) = tp_id y)
      by done.
    split.
    + by rewrite (update_first_find tp_id _ _ _ Hkey), Hf.
    + intros uid tpid payload. apply submit_result_ext; [|done|done].
      rewrite !resolves_find. simpl.
      by rewrite (update_first_keys tp_id _ _ _ Hkey).
Qed.

Lemma update_test_paper_keeps_grading_witness :
  catalogue_wf db0 ∧ resolves db0 1 ∧
  ∃ tp' db',
    update_test_paper db0 1
      {| tu_name := None; tu_duration_minutes := None;
         tu_is_active := Some false |} = (Some tp', db') ∧
    is_active tp' = false ∧
    (submit_test_and_calculate_score db' 10 1 (JObj {["7" := JInt 1]})).1
      = (submit_test_and_calculate_score db0 10 1 (JObj {["7" := JInt 1]})).1.
Proof.
  assert (Hwf : catalogue_wf db0).
  { split; vm_compute; repeat constructor; set_solver. }
  assert (Hr : resolves db0 1) by (eexists; reflexivity).
  split; [exact Hwf|]. split; [exact Hr|].
  destruct (proj2 (update_test_paper_keeps_grading db0 1
                     {| tu_name := None; tu_duration_minutes := None;
                        tu_is_active := Some false |} Hwf) Hr)
    as (tp & tp' & db' & _ & Hu & _ & _ & _ & _ & _ & Hsub).
  exists tp', db'. split; [exact Hu|]. split.
  - injection Hu as <- _. reflexivity.
  - apply Hsub.
Defined.

(** * Options of a question *)

Section question_options.
Implicit Types (opts : list OptionBase) (given : option Z).

Lemma options_loop_snoc i opts o given options coi :
  options_loop i (opts ++ [o]) given options coi =
  ((options_loop i opts given options coi).1 ++ [option_data o],
   if is_correct o
   then match given with
        | None => Some (i + Z.of_nat (length opts))
        | Some k => Some k
        end
   else (options_loop i opts given options coi).2).
Proof.
  revert i options coi. induction opts as [|o' opts IH];
    intros i options coi; simpl.
  - by rewrite Z.add_0_r.
  - rewrite IH.
    by replace (i + 1 + Z.of_nat (length opts))
      with (i + Z.of_nat (S (length opts))) by lia.
Qed.

Lemma options_loop_options i opts given options coi :
  (options_loop i opts given options coi).1 = options ++ (option_data <$> opts).
Proof.
  revert i options coi. induction opts as [|o opts IH];
    intros i options coi; simpl.
  - by rewrite app_nil_r.
  - rewrite IH. by rewrite <- app_assoc.
Qed.
End question_options.

(** X16: the options [create_new_question] builds are the texts of the
    requested options, in order. The correct-option index it computes is
    unset when no option is flagged as correct, whatever index the request
    carries; when some option is flagged it is the index the request
    carries, unchecked, or, when the request carries none, the position of
    the last flagged option. *)
Theorem create_question_index (opts : list OptionBase) (given : option Z) :
  (create_question_options opts given).1 = option_data <$> opts ∧
  (Forall (fun o => is_correct o = false) opts →
   (create_question_options opts given).2 = None) ∧
  (Exists (fun o => is_correct o = true) opts →
   match given with
   | Some k => (create_question_options opts given).2 = Some k
   | None =>
       ∃ i o,
         (create_question_options opts given).2 = Some (Z.of_nat i) ∧
         opts !! i = Some o ∧ is_correct o = true ∧
         ∀ j o', (i < j)%nat → opts !! j = Some o' → is_correct o' = false
   end).
Proof.
  unfold create_question_options.
  split; [by rewrite options_loop_options|].
  induction opts as [|o opts [IH1 IH2]] using rev_ind.
  - split; [done|]. by intros ?%Exists_nil.
  - rewrite options_loop_snoc. simpl. split.
    + intros [Hf Ho]%Forall_app. rewrite Forall_singleton in Ho.
      rewrite Ho. by apply IH1.
    + intros He. destruct (is_correct o) eqn:Eo.
      * destruct given as [k|]; [done|].
        exists (length opts), o. split; [done|].
        split; [by rewrite lookup_app_r, Nat.sub_diag by lia|].
        split; [done|]. intros j o' Hj Hl.
        apply lookup_lt_Some in Hl. rewrite length_app in Hl. simpl in Hl. lia.
      * apply Exists_app in He as [He|He].
        2:{ apply Exists_cons in He as [He|He%Exists_nil]; [congruence|done]. }
        specialize (IH2 He). destruct given as [k|]; [done|].
        destruct IH2 as (i & o0 & Hc & Hl & Ho & Hlast).
        exists i, o0. split; [done|].
        split; [by apply lookup_app_l_Some|]. split; [done|].
        intros j o' Hj Hl'.
        apply lookup_app_Some in Hl' as [Hl'|[Hge Hl']]; [by eauto|].
        apply list_lookup_singleton_Some in Hl' as [_ <-]. done.
Qed.

Lemma create_question_index_witness :
  Exists (fun o => is_correct o = true)
    [{| o_text := "a"; is_correct := true |};
     {| o_text := "b"; is_correct := true |};
     {| o_text := "c"; is_correct := false |}] ∧
  (create_question_options
     [{| o_text := "a"; is_correct := true |};
      {| o_text := "b"; is_correct := true |};
      {| o_text := "c"; is_correct := false |}] (Some 7)).2 = Some 7 ∧
  (create_question_options
     [{| o_text := "c"; is_correct := false |}] (Some 0)).2 = None.
Proof.
  assert (He : Exists (fun o => is_correct o = true)
    [{| o_text := "a"; is_correct := true |};
     {| o_text := "b"; is_correct := true |};
     {| o_text := "c"; is_correct := false |}]) by (by left).
  split; [exact He|]. split.
  - exact (proj2 (proj2 (create_question_index _ (Some 7))) He).
  - apply (proj1 (proj2 (create_question_index _ (Some 0)))).
    by repeat constructor.
Defined.

Section formatting.
Implicit Types (opts : list OptionBase) (l : list json).

Lemma format_options_created i opts :
  format_options i (option_data <$> opts) =
  Returns (imap (fun j o =>
             JObj {["id" := JInt (i + Z.of_nat j + 1);
                    "text" := JStr (o_text o)]}) opts).
Proof.
  revert i. induction opts as [|o opts IH]; intros i; [done|].
  csimpl. unfold option_data at 1. simpl.
  rewrite lookup_singleton_eq. simpl. rewrite IH. simpl.
  rewrite Z.add_0_r. do 2 f_equal. apply imap_ext. intros j o' _. simpl.
  do 4 f_equal. lia.
Qed.

End formatting.

(** X17: [format_question_output] succeeds on the options and the index
    [create_new_question] built, the serialized options being read back
    as the list that was serialized: it returns the options in order with
    the identifiers 1, 2, ..., and the identifier of the correct option is
    the correct-option index plus one when the index lies within the
    options, and unset otherwise. When the request carried no index and
    flagged some option, the identifier is that of a flagged option. *)
Theorem format_created_question (opts : list OptionBase) (given : option Z) :
  ∃ id,
    format_question_output (create_question_options opts given).1
      (create_question_options opts given).2
    = Returns (imap formatted_option opts, id) ∧
    id = match (create_question_options opts given).2 with
         | Some k =>
             if (0 <=? k) && (k <? Z.of_nat (length opts))
             then Some (JInt (k + 1)) else None
         | None => None
         end ∧
    (given = None → Exists (fun o => is_correct o = true) opts →
     ∃ i o, id = Some (JInt (Z.of_nat i + 1)) ∧
            opts !! i = Some o ∧ is_correct o = true).
Proof.
  destruct (create_question_index opts given) as (Ho & _ & Hsome).
  unfold format_question_output. rewrite Ho, format_options_created. simpl.
  assert (Hfmt : imap (fun j o =>
             JObj {["id" := JInt (0 + Z.of_nat j + 1);
                    "text" := JStr (o_text o)]}) opts
          = imap formatted_option opts).
  { apply imap_ext. intros j o _. unfold formatted_option. simpl.
    do 4 f_equal. }
  rewrite Hfmt.
  assert (Hid : ∀ k, 0 ≤ k < Z.of_nat (length opts) →
    getitem (nth (Z.to_nat k) (imap formatted_option opts) JNull) "id"
    = Returns (JInt (k + 1))).
  { intros k Hk.
    destruct (lookup_lt_is_Some_2 opts (Z.to_nat k)) as [o Hlo]; [lia|].
    rewrite (nth_lookup_Some _ _ JNull (formatted_option (Z.to_nat k) o)).
    - unfold formatted_option. simpl. rewrite lookup_insert_eq.
      do 2 f_equal. lia.
    - by rewrite list_lookup_imap, Hlo. }
  unfold correct_option_id. rewrite length_imap.
  destruct ((create_question_options opts given).2) as [k|] eqn:Hk.
  - destruct ((0 <=? k) && (k <? Z.of_nat (length opts))) eqn:Hr.
    + rewrite Hid by lia. simpl. eexists. split; [done|]. split; [done|].
      intros -> He. destruct (Hsome He) as (i & o & [= ->] & Hl & Hc & _).
      eauto.
    + simpl. eexists. split; [done|]. split; [done|].
      intros -> He. destruct (Hsome He) as (i & o & [= ->] & Hl & Hc & _).
      apply lookup_lt_Some in Hl. lia.
  - simpl. eexists. split; [done|]. split; [done|].
    intros -> He. by destruct (Hsome He) as (i & o & [=] & _).
Qed.

Lemma format_created_question_witness :
  Exists (fun o => is_correct o = true)
    [{| o_text := "a"; is_correct := false |};
     {| o_text := "b"; is_correct := true |}] ∧
  ∃ id,
    format_question_output
      (create_question_options
         [{| o_text := "a"; is_correct := false |};
          {| o_text := "b"; is_correct := true |}] None).1
      (create_question_options
         [{| o_text := "a"; is_correct := false |};
          {| o_text := "b"; is_correct := true |}] None).2
    = Returns (imap formatted_option
                 [{| o_text := "a"; is_correct := false |};
                  {| o_text := "b"; is_correct := true |}], id) ∧
    ∃ i o, id = Some (JInt (Z.of_nat i + 1)) ∧
           [{| o_text := "a"; is_correct := false |};
            {| o_text := "b"; is_correct := true |}] !! i = Some o ∧
           is_correct o = true.
Proof.
  assert (He : Exists (fun o => is_correct o = true)
    [{| o_text := "a"; is_correct := false |};
     {| o_text := "b"; is_correct := true |}]) by (right; by left).
  split; [exact He|].
  destruct (format_created_question
              [{| o_text := "a"; is_correct := false |};
               {| o_text := "b"; is_correct := true |}] None)
    as (id & Hf & _ & Hflag).
  exists id. split; [exact Hf|]. exact (Hflag eq_refl He).
Defined.

(** X18: [format_question_output] formats the options exactly when every
    stored option is an object with a ["text"] entry, and then returns as
    many options as are stored; an option that is an object without
    ["text"] makes it raise [KeyError] and any other value [TypeError]. *)
Theorem format_options_defined (i : Z) (l : list json) :
  ((∃ formatted, format_options i l = Returns formatted ∧
                 length formatted = length l) ↔
   Forall (fun o => ∃ m t, o = JObj m ∧ m !! "text" = Some t) l) ∧
  (∀ e, format_options i l = Raises e → e = KeyError ∨ e = TypeError).
Proof.
  split.
  - split.
    + intros (formatted & Hf & _). revert i formatted Hf.
      induction l as [|o l IH]; intros i formatted; simpl; [done|].
      destruct (getitem o "text") as [t|] eqn:Ht; simpl; [|done].
      destruct (format_options (i + 1) l) as [f|] eqn:E; simpl; [|done].
      intros _. constructor; [|by eapply IH].
      destruct o; try discriminate Ht. simpl in Ht.
      destruct (m !! "text") as [t'|] eqn:Hm; [|done]. eauto.
    + intros Hl. revert i. induction Hl as [|o l (m & t & -> & Hm) _ IH];
        intros i; simpl; [by eauto|].
      rewrite Hm. simpl. destruct (IH (i + 1)) as (f & -> & Hlen). simpl.
      eexists. split; [done|]. simpl. by rewrite Hlen.
  - revert i. induction l as [|o l IH]; intros i e; simpl; [done|].
    destruct (getitem o "text") as [t|e'] eqn:Ht; simpl.
    + destruct (format_options (i + 1) l) as [f|e''] eqn:E; simpl; [done|].
      intros [= <-]. by eapply IH.
    + intros [= <-]. destruct o; simpl in Ht; try (injection Ht as <-; auto).
      destruct (m !! "text"); [done|]. injection Ht as <-. auto.
Qed.

(** * Accounts *)

Section accounts.
Context {P : Platform}.
Implicit Types (db : UserTable) (a : Account).

Lemma users_wf_fresh db :
  users_wf db → next_user_id db ∉ account_id <$> users db.
Proof.
  intros [_ Hlt] (a & Ha & Hin)%list_elem_of_fmap.
  rewrite Forall_forall in Hlt. apply Hlt in Hin. lia.
Qed.

Lemma find_snoc_new {A} (p : A → bool) (l : list A) (x : A) :
  find p l = None → p x = true → find p (l ++ [x]) = Some x.
Proof.
  intros Hl Hx. induction l as [|y l IH]; simpl in *; [by rewrite Hx|].
  destruct (p y); [done|by apply IH].
Qed.

Lemma register_user_Some salt db n e pw r a db' :
  register_user salt db n e pw r = (Some a, db') →
  find_by_email db e = None ∧
  a = {| account_user := {| user_id_of := next_user_id db;
                            email := e; role := r |};
         full_name := Some n; phone_number := None; date_of_birth := None;
         hashed_password := pwd_hash salt pw |} ∧
  db' = {| users := users db ++ [a]; next_user_id := next_user_id db + 1 |}.
Proof.
  unfold register_user. destruct (find_by_email db e); [done|].
  by intros [= <- <-].
Qed.
End accounts.

(** X19: [register_user] returns None and changes nothing when an account
    with the e-mail address exists; otherwise it appends an account with
    the next key, the given role and the hash of the password, keeps the
    keys distinct, and the account is read back by [get_user_by_id] while
    every other key reads as before. *)
Theorem register_user_outcomes {P : Platform} (salt : string)
    (db : UserTable) (n e pw : string) (r : UserRole) :
  users_wf db →
  (is_Some (find_by_email db e) →
   register_user salt db n e pw r = (None, db)) ∧
  (find_by_email db e = None →
   ∃ a db',
     register_user salt db n e pw r = (Some a, db') ∧
     account_user a = {| user_id_of := next_user_id db;
                         email := e; role := r |} ∧
     hashed_password a = pwd_hash salt pw ∧
     users db' = users db ++ [a] ∧
     users_wf db' ∧
     get_user_by_id db' (account_id a) = Some a ∧
     ∀ id, id ≠ account_id a →
       get_user_by_id db' id = get_user_by_id db id).
Proof.
  intros Hwf. pose proof (users_wf_fresh db Hwf) as Hfresh.
  destruct Hwf as [Hnd Hlt]. unfold register_user. split.
  - by intros [a ->].
  - intros ->. eexists _, _. split; [done|]. simpl.
    split; [done|]. split; [done|]. split; [done|].
    split.
    { split; simpl.
      - rewrite fmap_app. apply NoDup_app. split; [done|].
        split; [|apply NoDup_singleton].
        intros k Hk ->%list_elem_of_singleton. done.
      - apply Forall_app. split.
        + eapply Forall_impl; [exact Hlt|]. simpl. intros; lia.
        + apply Forall_singleton. unfold account_id. simpl. lia. }
    unfold get_user_by_id. simpl. split.
    + by apply (find_key_snoc account_id).
    + intros id Hid. by apply (find_key_snoc_ne account_id).
Qed.

Lemma register_user_outcomes_witness :
  users_wf users0 ∧
  register_user (P := sample_platform) "s" users0 "A" "alice@example.org"
    "secret" USER = (None, users0) ∧
  ∃ a db',
    register_user (P := sample_platform) "s" users0 "Bob" "bob@example.org"
      "secret" USER = (Some a, db') ∧
    get_user_by_id db' (account_id a) = Some a.
Proof.
  assert (Hwf : users_wf users0).
  { split; [vm_compute; repeat constructor; set_solver|].
    repeat constructor. }
  split; [exact Hwf|]. split.
  - apply (proj1 (register_user_outcomes (P := sample_platform) "s" users0
                    "A" "alice@example.org" "secret" USER Hwf)).
    eexists. reflexivity.
  - destruct (proj2 (register_user_outcomes (P := sample_platform) "s"
                       users0 "Bob" "bob@example.org" "secret" USER Hwf)
                eq_refl) as (a & db' & Hr & _ & _ & _ & _ & Hg & _).
    eauto.
Defined.

(** X20: an account that [register_user] created is authenticated by
    [authenticate_user] with every password the password context verifies
    against the stored hash, in particular with the registered password
    when the context verifies a password against its own hash, and with
    no other; the store's equality on e-mail addresses is taken to be
    reflexive. *)
Theorem register_then_authenticate {P : Platform} (salt : string)
    (db db' : UserTable) (n e pw pw' : string) (r : UserRole)
    (a : Account) :
  same_email e e = true →
  register_user salt db n e pw r = (Some a, db') →
  authenticate_user db' e pw' =
    if pwd_verify pw' (pwd_hash salt pw) then Some a else None.
Proof.
  intros Hrefl (Hnone & Ha & ->)%register_user_Some.
  unfold authenticate_user, find_by_email in *. simpl.
  rewrite (find_snoc_new _ _ a Hnone) by (subst a; exact Hrefl).
  subst a. simpl. by destruct (pwd_verify pw' (pwd_hash salt pw)).
Qed.

Lemma register_then_authenticate_witness :
  ∃ a db',
    register_user (P := sample_platform) "s" users0 "Bob" "bob@example.org"
      "secret" USER = (Some a, db') ∧
    authenticate_user (P := sample_platform) db' "bob@example.org" "secret"
      = Some a ∧
    authenticate_user (P := sample_platform) db' "bob@example.org" "guess"
      = None.
Proof.
  destruct (register_user (P := sample_platform) "s" users0 "Bob"
              "bob@example.org" "secret" USER) as [[a|] db'] eqn:Hr;
    [|vm_compute in Hr; discriminate].
  exists a, db'. split; [reflexivity|]. split.
  - exact (register_then_authenticate (P := sample_platform) "s" users0 db'
             "Bob" "bob@example.org" "secret" "secret" USER a eq_refl Hr).
  - exact (register_then_authenticate (P := sample_platform) "s" users0 db'
             "Bob" "bob@example.org" "secret" "guess" USER a eq_refl Hr).
Defined.

(** X21: [register_admin] creates an account only when the presented
    secret is [ADMIN_SECRET_KEY], and the account then is an administrator;
    with any other secret [POST /auth/admin/register] answers 400 and the
    table is unchanged. *)
Theorem register_admin_requires_secret {P : Platform}
    (ADMIN_SECRET_KEY salt : string) (db : UserTable)
    (n e pw admin_secret : string) :
  (∀ a db',
     register_admin ADMIN_SECRET_KEY salt db n e pw admin_secret
       = (Some a, db') →
     admin_secret = ADMIN_SECRET_KEY ∧ role (account_user a) = ADMIN) ∧
  (admin_secret ≠ ADMIN_SECRET_KEY →
   register_admin ADMIN_SECRET_KEY salt db n e pw admin_secret = (None, db) ∧
   admin_registration ADMIN_SECRET_KEY salt db n e pw admin_secret
     = (HTTPException 400, db)).
Proof.
  unfold admin_registration, register_admin. split.
  - intros a db'. destruct (String.eqb admin_secret ADMIN_SECRET_KEY) eqn:E;
      simpl; [|done].
    apply String.eqb_eq in E.
    intros (_ & -> & _)%register_user_Some. done.
  - intros Hne%String.eqb_neq. by rewrite Hne.
Qed.

Lemma register_admin_requires_secret_witness :
  "guess" ≠ "mcq_admin_secret_key_change_in_production" ∧
  admin_registration (P := sample_platform)
    "mcq_admin_secret_key_change_in_production" "s" users0 "Eve"
    "eve@example.org" "secret" "guess" = (HTTPException 400, users0).
Proof.
  assert (H : "guess" ≠ "mcq_admin_secret_key_change_in_production")
    by discriminate.
  split; [exact H|].
  exact (proj2 (proj2 (register_admin_requires_secret (P := sample_platform)
                  "mcq_admin_secret_key_change_in_production" "s" users0
                  "Eve" "eve@example.org" "secret" "guess") H)).
Defined.

(** X22: [POST /auth/admin/create-user] answers 403 to a standard account
    and leaves the table unchanged; for an administrator it answers 400
    with the table unchanged when the e-mail address is taken, and
    otherwise creates a standard account, never an administrator. *)
Theorem admin_create_user_outcomes {P : Platform} (salt : string)
    (db : UserTable) (n e pw : string) (u : User) :
  (role u = USER →
   admin_create_user salt db n e pw u = (HTTPException 403, db)) ∧
  (role u = ADMIN → is_Some (find_by_email db e) →
   admin_create_user salt db n e pw u = (HTTPException 400, db)) ∧
  (∀ a db', admin_create_user salt db n e pw u = (Ok a, db') →
     role u = ADMIN ∧ role (account_user a) = USER ∧
     email (account_user a) = e ∧ users db' = users db ++ [a]).
Proof.
  unfold admin_create_user, get_current_admin. split; [by intros ->|].
  split.
  - intros -> [a Ha]. simpl. unfold register_user. by rewrite Ha.
  - intros a db'. destruct (role u) eqn:Hu; simpl; [done|].
    destruct (register_user salt db n e pw USER) as [[a'|] db''] eqn:Hr;
      [|done].
    intros [= -> ->]. apply register_user_Some in Hr as (_ & -> & ->). done.
Qed.

Lemma admin_create_user_outcomes_witness :
  role alice = USER ∧
  admin_create_user (P := sample_platform) "s" users0 "Bob"
    "bob@example.org" "secret" alice = (HTTPException 403, users0).
Proof.
  split; [reflexivity|].
  exact (proj1 (admin_create_user_outcomes (P := sample_platform) "s" users0
                  "Bob" "bob@example.org" "secret" alice) eq_refl).
Defined.

(** * Authentication of a request *)

Section current_user.
Context {J : Jose} {P : Platform} (cfg : settings).
Implicit Types (db : UserTable) (a : Account) (h : heap) (c : claims).

(** The claims of the token [create_user_token] issues at [now]. *)
Lemma create_user_token_run a now h :
  ∃ h',
    create_user_token cfg a now h =
    Some ((jwt_encode
             (<["exp" := JInt (now + 60 * ACCESS_TOKEN_EXPIRE_MINUTES cfg)]>
                (token_data a))
             (SECRET_KEY cfg) (ALGORITHM cfg), "bearer"), h').
Proof.
  unfold create_user_token, st_bind, dict_new.
  rewrite (create_access_token_run cfg _ _ (token_data a))
    by apply lookup_insert_eq.
  eexists. do 3 f_equal. unfold expiry.
  by destruct (negb (60 * ACCESS_TOKEN_EXPIRE_MINUTES cfg =? 0)).
Qed.

Lemma verify_token_issued c exp now :
  verify_token cfg now
    (jwt_encode (<["exp" := JInt exp]> c) (SECRET_KEY cfg) (ALGORITHM cfg)) =
  if exp <? now then Returns None
  else match validate_other (<["exp" := JInt exp]> c) now with
       | Returns _ => Returns (Some (<["exp" := JInt exp]> c))
       | Raises e => if jwt_error e then Returns None else Raises e
       end.
Proof.
  unfold verify_token. rewrite jwt_decode_encoded.
  unfold validate_exp. rewrite lookup_insert_eq. simpl.
  destruct (exp <? now); [done|]. simpl.
  by destruct (validate_other (<["exp" := JInt exp]> c) now) as [[]|e].
Qed.

Lemma get_sub_issued c exp : get_sub (<["exp" := JInt exp]> c) = get_sub c.
Proof. unfold get_sub. by rewrite lookup_insert_ne. Qed.

Lemma size_issued c exp : Nat.eqb (size (<["exp" := JInt exp]> c)) 0 = false.
Proof.
  apply Nat.eqb_neq. intros H%map_size_empty_iff.
  by apply insert_non_empty in H.
Qed.

(** What [get_current_user] makes of a token the codec issued. *)
Lemma get_current_user_issued c exp now db :
  (exp <? now) = false →
  validate_other (<["exp" := JInt exp]> c) now = Returns () →
  get_current_user cfg now
    (jwt_encode (<["exp" := JInt exp]> c) (SECRET_KEY cfg) (ALGORITHM cfg))
    db =
  match py_int (get_sub c) with
  | None => Propagated
  | Some user_id =>
      if user_id =? 0 then Rejected 401
      else match get_user_by_id db user_id with
           | None => Rejected 401
           | Some user => Resolved user
           end
  end.
Proof.
  intros Hexp Hother. unfold get_current_user.
  by rewrite verify_token_issued, Hexp, Hother, size_issued, get_sub_issued.
Qed.

Lemma get_sub_token_data a : get_sub (token_data a) = JStr (str (account_id a)).
Proof. unfold get_sub, token_data. by rewrite lookup_insert_eq. Qed.
End current_user.

(** X23: an account that [POST /auth/login] authenticates receives a
    bearer token that [get_current_user] resolves to that account, for as
    long as the token has not expired: the keys of the table are distinct,
    the key of the account is not 0, [int] reads the key back from its
    decimal numeral, and the claims pass the library's checks of the other
    registered claims. Where the credentials are not accepted the answer
    is 401 and no token is made. *)
Theorem login_then_current_user {J : Jose} {P : Platform} (cfg : settings)
    (db : UserTable) (username password : string) (now : Z) (h : heap) :
  users_wf db →
  (authenticate_user db username password = None →
   login cfg db username password now h = Some (HTTPException 401, h)) ∧
  (∀ a now',
     authenticate_user db username password = Some a →
     account_id a ≠ 0 →
     int_of_str (str (account_id a)) = Some (account_id a) →
     now' ≤ now + 60 * ACCESS_TOKEN_EXPIRE_MINUTES cfg →
     validate_other
       (<["exp" := JInt (now + 60 * ACCESS_TOKEN_EXPIRE_MINUTES cfg)]>
          (token_data a)) now' = Returns () →
     ∃ tok h',
       login cfg db username password now h = Some (Ok (tok, "bearer"), h') ∧
       get_current_user cfg now' tok db = Resolved a).
Proof.
  intros [Hnd _]. unfold login. split; [by intros ->|].
  intros a now' Hauth Hid Hint Hnow Hother. rewrite Hauth.
  assert (Hget : get_user_by_id db (account_id a) = Some a).
  { unfold authenticate_user, find_by_email in Hauth.
    destruct (find _ (users db)) as [a0|] eqn:Hf; [|done].
    destruct (negb _); [done|]. injection Hauth as ->.
    apply find_some in Hf as [Hin _].
    apply (find_key_NoDup account_id); [done|by apply list_elem_of_In]. }
  destruct (create_user_token_run cfg a now h) as [h' Hrun].
  rewrite Hrun. eexists _, h'. split; [done|].
  rewrite get_current_user_issued; [|lia|done].
  rewrite get_sub_token_data. simpl. rewrite Hint.
  apply Z.eqb_neq in Hid. by rewrite Hid, Hget.
Qed.

Lemma login_then_current_user_witness :
  users_wf users0 ∧
  ∃ tok h',
    login (J := jose_model) (P := sample_platform) default_settings users0
      "alice@example.org" "wonderland" 1000 store0
    = Some (Ok (tok, "bearer"), h') ∧
    get_current_user (J := jose_model) (P := sample_platform)
      default_settings 2800 tok users0 = Resolved alice_account.
Proof.
  assert (Hwf : users_wf users0).
  { split; [vm_compute; repeat constructor; set_solver|].
    repeat constructor. }
  split; [exact Hwf|].
  apply (proj2 (login_then_current_user (J := jose_model)
                  (P := sample_platform) default_settings users0
                  "alice@example.org" "wonderland" 1000 store0 Hwf)
           alice_account 2800).
  - reflexivity.
  - discriminate.
  - vm_compute; reflexivity.
  - vm_compute; discriminate.
  - vm_compute; reflexivity.
Defined.

(** X24: [get_current_user] answers 401 to a token text that does not
    parse, to a token whose signature is not the one the key gives for its
    header and payload, to a token of [create_user_token] that has
    expired, and to an unexpired one whose account is no longer stored. *)
Theorem get_current_user_rejects {J : Jose} {P : Platform} (cfg : settings)
    (db : UserTable) (now' : Z) :
  (∀ text, get_current_user cfg now' (Malformed text) db = Rejected 401) ∧
  (∀ alg body signature,
     signature ≠ hmac (SECRET_KEY cfg) alg body →
     get_current_user cfg now' (Compact alg body signature) db
       = Rejected 401) ∧
  (∀ a now h tok ty h',
     create_user_token cfg a now h = Some ((tok, ty), h') →
     (now + 60 * ACCESS_TOKEN_EXPIRE_MINUTES cfg < now' →
      get_current_user cfg now' tok db = Rejected 401) ∧
     (now' ≤ now + 60 * ACCESS_TOKEN_EXPIRE_MINUTES cfg →
      validate_other
        (<["exp" := JInt (now + 60 * ACCESS_TOKEN_EXPIRE_MINUTES cfg)]>
           (token_data a)) now' = Returns () →
      int_of_str (str (account_id a)) = Some (account_id a) →
      get_user_by_id db (account_id a) = None →
      get_current_user cfg now' tok db = Rejected 401)).
Proof.
  split; [done|]. split.
  - intros alg body signature Hs. unfold get_current_user.
    by rewrite verify_token_bad_signature.
  - intros a now h tok ty h' Hc.
    destruct (create_user_token_run cfg a now h) as [h'' Hrun].
    rewrite Hrun in Hc. injection Hc as <- <- <-. split.
    + intros Hexp. unfold get_current_user.
      rewrite verify_token_issued.
      by destruct (_ <? now') eqn:E; [|lia].
    + intros Hnow Hother Hint Hnone.
      rewrite get_current_user_issued; [|lia|done].
      rewrite get_sub_token_data. simpl. rewrite Hint, Hnone.
      by destruct (account_id a =? 0).
Qed.

Lemma get_current_user_rejects_witness :
  ∃ tok h',
    create_user_token (J := jose_model) default_settings alice_account 1000
      store0 = Some ((tok, "bearer"), h') ∧
    get_current_user (J := jose_model) (P := sample_platform)
      default_settings 2801 tok users0 = Rejected 401.
Proof.
  destruct (create_user_token_run (J := jose_model) default_settings
              alice_account 1000 store0) as [h' Hrun].
  eexists _, h'. split; [exact Hrun|].
  apply (proj1 (proj2 (proj2 (get_current_user_rejects (J := jose_model)
                  (P := sample_platform) default_settings users0 2801))
                  alice_account 1000 store0 _ _ _ Hrun)).
  vm_compute. reflexivity.
Defined.

(** X25: a token that verifies but whose ["sub"] claim is missing, or is
    not something [int] accepts, makes [get_current_user] raise instead
    of answering 401: the conversion is outside any handler. *)
Theorem token_without_subject_propagates {J : Jose} {P : Platform}
    (cfg : settings) (db : UserTable) (h : heap) (data : loc) (d : claims)
    (expires_delta : option Z) (now now' : Z) :
  h !! data = Some d →
  py_int (get_sub d) = None →
  now' ≤ expiry cfg expires_delta now →
  validate_other (<["exp" := JInt (expiry cfg expires_delta now)]> d) now'
    = Returns () →
  ∃ tok h',
    create_access_token cfg data expires_delta now h = Some (tok, h') ∧
    get_current_user cfg now' tok db = Propagated.
Proof.
  intros Hd Hsub Hnow Hother.
  rewrite (create_access_token_run cfg h data d _ _ Hd).
  eexists _, _. split; [done|].
  rewrite get_current_user_issued; [|lia|done]. by rewrite Hsub.
Qed.

Lemma token_without_subject_propagates_witness :
  ∃ tok h',
    create_access_token (J := jose_model) default_settings 1%positive None
      1000 {[1%positive := {["email" := JStr "alice@example.org"]}]}
      = Some (tok, h') ∧
    get_current_user (J := jose_model) (P := sample_platform)
      default_settings 1000 tok users0 = Propagated.
Proof.
  apply (token_without_subject_propagates (J := jose_model)
           (P := sample_platform) default_settings users0
           {[1%positive := {["email" := JStr "alice@example.org"]}]}
           1%positive {["email" := JStr "alice@example.org"]} None 1000 1000).
  - vm_compute; reflexivity.
  - vm_compute; reflexivity.
  - vm_compute; discriminate.
  - vm_compute; reflexivity.
Defined.

Lemma update_first_Forall {A} (Q : A → Prop) (p : A → bool) (f : A → A)
    (l : list A) :
  (∀ x, Q x → Q (f x)) → Forall Q l → Forall Q (update_first p f l).
Proof.
  intros Hf. induction 1 as [|y l Hy Hl IH]; simpl; [done|].
  destruct (p y); constructor; auto.
Qed.

(** X26: [PATCH /auth/users/{user_id}] answers 403 to a standard account
    that names another account, and leaves the table unchanged; where the
    policy allows the update it answers 404 when no account has the key;
    when another account holds the telephone number the exception of the
    store leaves the handler and the table is unchanged; otherwise it sets
    the three profile fields of that account and nothing else: key, e-mail
    address, role and password hash are kept, the other accounts are read
    back as before, and [GET /auth/users/{user_id}] returns the updated
    account to the same caller. *)
Theorem update_user_outcomes {P : Platform} (target : Z) (data : UserUpdate)
    (db : UserTable) (u : User) :
  users_wf db →
  (canAccess (role u) (user_id_of u) target UpdateProfile = false →
   update_user target data db u = (Rejected 403, db)) ∧
  (canAccess (role u) (user_id_of u) target UpdateProfile = true →
   get_user_by_id db target = None →
   update_user target data db u = (Rejected 404, db)) ∧
  (canAccess (role u) (user_id_of u) target UpdateProfile = true →
   ∀ a, get_user_by_id db target = Some a →
   (phone_taken db target (uu_phone_number data) = true →
    update_user target data db u = (Propagated, db)) ∧
   (phone_taken db target (uu_phone_number data) = false →
    ∃ a' db',
      update_user target data db u = (Resolved a', db') ∧
      account_user a' = account_user a ∧
      hashed_password a' = hashed_password a ∧
      full_name a' = Some (uu_full_name data) ∧
      phone_number a' = Some (uu_phone_number data) ∧
      date_of_birth a' = Some (uu_date_of_birth data) ∧
      get_user_by_id_endpoint target db' u = Ok a' ∧
      (∀ id, id ≠ target → get_user_by_id db' id = get_user_by_id db id) ∧
      users_wf db')).
Proof.
  intros [Hnd Hlt].
  unfold update_user, get_user_by_id_endpoint, canAccess.
  destruct (bool_decide (role u ≠ ADMIN)
            && bool_decide (user_id_of u ≠ target)); simpl.
  - split; [done|]. split; discriminate.
  - split; [discriminate|].
    unfold update_user_by_id, get_user_by_id. split.
    + intros _ ->. done.
    + intros _ a Hf. rewrite Hf. split; intros ->; [done|].
      eexists _, _. split; [done|]. simpl.
      assert (Hkey : ∀ y, account_id (apply_user_update data y) = account_id y)
        by done.
      do 5 (split; [done|]).
      split; [by rewrite (update_first_find account_id _ _ _ Hkey), Hf|].
      split.
      * intros id Hid. by apply (update_first_find_ne account_id).
      * split; simpl.
        -- by rewrite (update_first_keys account_id _ _ _ Hkey).
        -- by apply update_first_Forall.
Qed.

Lemma update_user_outcomes_witness :
  users_wf users0 ∧
  update_user (P := sample_platform) 10
    {| uu_full_name := "Mallory"; uu_phone_number := "0123456789";
       uu_date_of_birth := 0 |} users0
    {| user_id_of := 11; email := "bob@example.org"; role := USER |}
  = (Rejected 403, users0) ∧
  ∃ a' db',
    update_user (P := sample_platform) 10
      {| uu_full_name := "Alice L."; uu_phone_number := "0123456789";
         uu_date_of_birth := 0 |} users0 alice = (Resolved a', db') ∧
    account_user a' = alice ∧
    get_user_by_id_endpoint 10 db' alice = Ok a'.
Proof.
  assert (Hwf : users_wf users0).
  { split; [vm_compute; repeat constructor; set_solver|].
    repeat constructor. }
  split; [exact Hwf|]. split.
  - apply (proj1 (update_user_outcomes (P := sample_platform) 10 _ users0
                    _ Hwf)). reflexivity.
  - destruct (proj2 (proj2 (proj2 (update_user_outcomes (P := sample_platform)
                10
                {| uu_full_name := "Alice L.";
                   uu_phone_number := "0123456789";
                   uu_date_of_birth := 0 |} users0 alice Hwf))
                eq_refl alice_account eq_refl) eq_refl)
      as (a' & db' & Hu & Ha & _ & _ & _ & _ & Hget & _).
    exists a', db'. by repeat split.
Defined.

(** * Lifetime of a token *)


